(** * AI-Dual-Console: the session and credential core of [src/main/main.js]

    A shallow embedding of the main-process code that registers users, logs
    them in and keeps the session file [user-session.json] in step with the
    module-level variable [currentUser], followed by the properties the
    specification states about it.

    Modelling conventions.
    - The module state ([currentUser], the session file, the [user] table) is
      one record, [World]; every function of the source is a computation in
      the monad [Js], which threads the world and carries JavaScript's
      exceptions, so that [try]/[catch] blocks are written where the source
      has them.
    - Every call of [Date.now()] is an argument of the function that makes
      it, one argument per call site, in program order.  [saveSession] reads
      the clock twice and therefore takes two readings.
    - [bcrypt] is an external library: its [hash] and [compare] are
      parameters of the development, and so is the random salt [hash] draws.
    - Handlers run to completion one at a time, except that the registration
      handler is also given with the requests served while it awaits its
      hash, since its existence check and its INSERT lie on either side of
      that [await].
    - The file system is the ideal one: reading, writing and unlinking an
      existing file succeed.  [console.log], window handling and preload
      switching do not touch the modelled state and are left out.
    - Values are typed: names, emails and passwords are strings, identifiers
      and clock readings are integers, preference values are JSON scalars.
      The session file holds either text [JSON.parse] rejects or a JSON value
      of the shape [saveSession] writes, any field of which may be missing.
    - Of Electron, the window is what the main process asked for last: the
      preload scripts set on its session and the file loaded.  For
      [getDatabasePath] the files of the machine are a map from paths to
      contents.  Key names are byte strings, lower-cased letter by letter. *)

From Stdlib Require Import ZArith.
From stdpp Require Import base option gmap strings list fin_maps.

Local Open Scope string_scope.
Local Open Scope Z_scope.

(** ** Data *)

(** Preference values: the JSON scalars. *)
Inductive JsonValue : Type :=
| JNull
| JBool (b : bool)
| JNumber (n : Z)
| JString (s : string).

#[global] Instance JsonValue_eq_dec : EqDecision JsonValue.
Proof. solve_decision. Defined.

(** The user object held in [currentUser] and stored under [user] in the
    session file: [{ id, name, email, preferences }].  [preferences] may be
    missing in an object read back from the file, which is why [saveSession]
    writes [userData.preferences || {}]. *)
Record User : Type := mkUser {
  user_id : Z;
  user_name : string;
  user_email : string;
  user_preferences : option (gmap string JsonValue)
}.

(** The value [JSON.parse] yields for the session file:
    [{ user, timestamp, expiresAt }], each field possibly absent. *)
Record SessionData : Type := mkSessionData {
  sd_user : option User;
  sd_timestamp : option Z;
  sd_expiresAt : option Z
}.

(** Content of [user-session.json].  [JsonText v] is text that [JSON.parse]
    maps to [v] ([None] is the JSON literal [null]); [Unparseable raw] is
    text on which [JSON.parse] throws. *)
Inductive FileContent : Type :=
| Unparseable (raw : string)
| JsonText (v : option SessionData).

(** A row of the table [user] of [database.js]
    ([id INTEGER PRIMARY KEY AUTOINCREMENT, name, email UNIQUE, password]);
    [created_at] is read by no handler and is left out. *)
Record UserRow : Type := mkUserRow {
  row_id : Z;
  row_name : string;
  row_email : string;
  row_password : string
}.

(** The database: the rows in insertion order and the counter SQLite keeps
    in [sqlite_sequence] for the AUTOINCREMENT column. *)
Record Database : Type := mkDatabase {
  rows : list UserRow;
  seq : Z
}.

Record World : Type := mkWorld {
  currentUser : option User;
  userSessionFile : option FileContent;
  db : Database
}.

#[global] Instance User_eq_dec : EqDecision User.
Proof. solve_decision. Defined.
#[global] Instance SessionData_eq_dec : EqDecision SessionData.
Proof. solve_decision. Defined.
#[global] Instance FileContent_eq_dec : EqDecision FileContent.
Proof. solve_decision. Defined.
#[global] Instance UserRow_eq_dec : EqDecision UserRow.
Proof. solve_decision. Defined.
#[global] Instance Database_eq_dec : EqDecision Database.
Proof. solve_decision. Defined.
#[global] Instance World_eq_dec : EqDecision World.
Proof. solve_decision. Defined.

(** [const SESSION_TIMEOUT = 24 * 60 * 60 * 1000] *)
Definition SESSION_TIMEOUT : Z := 24 * 60 * 60 * 1000.

(** ** The monad of main-process code *)

Inductive JsError : Type :=
| SyntaxError (msg : string)
| FsError (msg : string)
| SqliteError (msg : string).

(** [error.message] *)
Definition message (error : JsError) : string :=
  match error with
  | SyntaxError msg | FsError msg | SqliteError msg => msg
  end.

Inductive Completion (A : Type) : Type :=
| Normal (a : A)
| Throw (error : JsError).
Arguments Normal {A} a.
Arguments Throw {A} error.

Definition Js (A : Type) : Type := World -> Completion A * World.

#[global] Instance Js_ret : MRet Js := fun A a w => (Normal a, w).

#[global] Instance Js_bind : MBind Js := fun A B k m w =>
  match m w with
  | (Normal a, w') => k a w'
  | (Throw error, w') => (Throw error, w')
  end.

Definition throw {A : Type} (error : JsError) : Js A :=
  fun w => (Throw error, w).

(** [try { body } catch (error) { handler }] *)
Definition tryCatch {A : Type} (body : Js A) (handler : JsError -> Js A) : Js A :=
  fun w =>
    match body w with
    | (Normal a, w') => (Normal a, w')
    | (Throw error, w') => handler error w'
    end.

(** The value and the world a computation ends in. *)
Definition result {A : Type} (r : Completion A * World) : Completion A := fst r.
Definition world {A : Type} (r : Completion A * World) : World := snd r.

(** *** The module variable [currentUser] *)

Definition get_currentUser : Js (option User) :=
  fun w => (Normal (currentUser w), w).

Definition set_currentUser (u : option User) : Js unit :=
  fun w => (Normal tt, mkWorld u (userSessionFile w) (db w)).

(** *** [fs] and [JSON] on [userSessionPath] *)

Definition fs_existsSync : Js bool :=
  fun w =>
    match userSessionFile w with
    | Some _ => (Normal true, w)
    | None => (Normal false, w)
    end.

Definition fs_readFileSync : Js FileContent :=
  fun w =>
    match userSessionFile w with
    | Some content => (Normal content, w)
    | None => (Throw (FsError "ENOENT: no such file or directory"), w)
    end.

Definition fs_writeFileSync (content : FileContent) : Js unit :=
  fun w => (Normal tt, mkWorld (currentUser w) (Some content) (db w)).

Definition fs_unlinkSync : Js unit :=
  fun w =>
    match userSessionFile w with
    | Some _ => (Normal tt, mkWorld (currentUser w) None (db w))
    | None => (Throw (FsError "ENOENT: no such file or directory"), w)
    end.

Definition JSON_parse (content : FileContent) : Js (option SessionData) :=
  match content with
  | Unparseable _ => throw (SyntaxError "Unexpected token in JSON")
  | JsonText v => mret v
  end.

(** [JSON.stringify(sessionData, null, 2)]: the text written is one that
    [JSON.parse] maps back to [sessionData]. *)
Definition JSON_stringify (sessionData : SessionData) : FileContent :=
  JsonText (Some sessionData).

(** Truthiness of a number: [0] is falsy. *)
Definition truthy_number (n : Z) : bool := negb (n =? 0).

(** ** Session management *)

(** [function clearSession()] *)
Definition clearSession : Js unit :=
  tryCatch
    (ex ← fs_existsSync;
     (if ex : bool then fs_unlinkSync else mret tt);;
     set_currentUser None)
    (fun error => mret tt).

(** The test [sessionData && sessionData.user && sessionData.timestamp]:
    the user and the timestamp when the three are truthy. *)
Definition session_fields (sessionData : option SessionData) : option (User * Z) :=
  match sessionData with
  | Some sd =>
      match sd_user sd, sd_timestamp sd with
      | Some u, Some ts => if truthy_number ts then Some (u, ts) else None
      | _, _ => None
      end
  | None => None
  end.

(** [function loadSavedSession()]; [currentTime] is its [Date.now()]. *)
Definition loadSavedSession (currentTime : Z) : Js bool :=
  tryCatch
    (ex ← fs_existsSync;
     if ex : bool then
       text ← fs_readFileSync;
       sessionData ← JSON_parse text;
       match session_fields sessionData with
       | Some (u, ts) =>
           let sessionAge := currentTime - ts in
           if sessionAge <? SESSION_TIMEOUT then
             set_currentUser (Some u);;
             mret true
           else
             clearSession;;
             mret false
       | None => mret false
       end
     else mret false)
    (fun error => clearSession;; mret false).

(** The object literal [saveSession] builds from [userData]. *)
Definition session_user (userData : User) : User :=
  {| user_id := user_id userData;
     user_name := user_name userData;
     user_email := user_email userData;
     user_preferences := Some (default ∅ (user_preferences userData)) |}.

(** [function saveSession(userData)]; [now1] is the [Date.now()] of the
    [timestamp] field, [now2] the one of [expiresAt]. *)
Definition saveSession (userData : User) (now1 now2 : Z) : Js unit :=
  tryCatch
    (let sessionData :=
       {| sd_user := Some (session_user userData);
          sd_timestamp := Some now1;
          sd_expiresAt := Some (now2 + SESSION_TIMEOUT) |} in
     fs_writeFileSync (JSON_stringify sessionData))
    (fun error => mret tt).

(** [function refreshSession()] *)
Definition refreshSession (now1 now2 : Z) : Js unit :=
  cu ← get_currentUser;
  match cu with
  | Some u => saveSession u now1 now2
  | None => mret tt
  end.

(** ** Handlers of the session channels *)

(** [ipcMain.handle('get-current-user', ...)]; [currentTime] is read by
    [loadSavedSession], [now1] and [now2] by the refresh. *)
Definition get_current_user (currentTime now1 now2 : Z) : Js (option User) :=
  cu ← get_currentUser;
  match cu with
  | Some _ =>
      sessionValid ← loadSavedSession currentTime;
      if sessionValid : bool then
        refreshSession now1 now2;;
        get_currentUser
      else mret None
  | None => mret None
  end.

(** [ipcMain.on('logout', ...)]: of the handler only [clearSession()]
    touches the modelled state. *)
Definition logout : Js unit := clearSession.

(** [ipcMain.on('save-user-preferences', ...)];
    [{ ...currentUser.preferences, ...preferences }] is the union in which
    the keys of [preferences] win. *)
Definition save_user_preferences (preferences : gmap string JsonValue)
    (now1 now2 : Z) : Js unit :=
  cu ← get_currentUser;
  match cu with
  | None => mret tt
  | Some u =>
      tryCatch
        (let merged := preferences ∪ default ∅ (user_preferences u) in
         let u' := mkUser (user_id u) (user_name u) (user_email u) (Some merged) in
         set_currentUser (Some u');;
         saveSession u' now1 now2)
        (fun error => mret tt)
  end.

(** [ipcMain.on('session-activity', ...)] *)
Definition session_activity (now1 now2 : Z) : Js unit := refreshSession now1 now2.

(** [ipcMain.handle('validate-session', ...)] *)
Definition validate_session (currentTime : Z) : Js bool := loadSavedSession currentTime.

(** ** The credential store *)

(** [db.prepare("SELECT * FROM user WHERE email = ?").get(email)]: the first
    row whose email is [email], compared byte for byte. *)
Definition lookup_email (email : string) (d : Database) : option UserRow :=
  List.find (fun r => String.eqb (row_email r) email) (rows d).

Definition select_user_by_email (email : string) : Js (option UserRow) :=
  fun w => (Normal (lookup_email email (db w)), w).

(** The rowid AUTOINCREMENT assigns: one more than the largest rowid the
    table has ever held. *)
Definition next_rowid (d : Database) : Z :=
  Z.max (seq d) (foldr (fun r acc => Z.max (row_id r) acc) 0 (rows d)) + 1.

(** [db.prepare("INSERT INTO user (name, email, password) VALUES (?, ?, ?)")
    .run(name, email, password)], returning [lastInsertRowid].  The column
    [email] is UNIQUE: SQLite rejects a second row with the same email and
    the driver throws its error, leaving the table as it was. *)
Definition insert_user (name email password : string) : Js Z :=
  fun w =>
    let d := db w in
    match lookup_email email d with
    | Some _ => (Throw (SqliteError "UNIQUE constraint failed: user.email"), w)
    | None =>
        let rowid := next_rowid d in
        (Normal rowid,
         mkWorld (currentUser w) (userSessionFile w)
           (mkDatabase (rows d ++ [mkUserRow rowid name email password]) rowid))
    end.

(** [async function getUserByEmail(email)] *)
Definition getUserByEmail (email : string) : Js (option UserRow) :=
  tryCatch
    (user ← select_user_by_email email;
     mret user)
    (fun error => throw error).

(** The argument [{ name, email, password }] of the registration request and
    of [saveUserToDB]. *)
Record UserData : Type := mkUserData {
  ud_name : string;
  ud_email : string;
  ud_password : string
}.

(** [async function saveUserToDB(userData)] *)
Definition saveUserToDB (userData : UserData) : Js Z :=
  tryCatch
    (insert_user (ud_name userData) (ud_email userData) (ud_password userData))
    (fun error => throw error).

(** ** Registration and login *)

(** [{ email, password }] *)
Record LoginData : Type := mkLoginData {
  login_email : string;
  login_password : string
}.

(** Replies of ['register-user']: [{ success: true, userId }] or
    [{ success: false, message }]. *)
Inductive RegisterReply : Type :=
| RegisterOk (userId : Z)
| RegisterFail (msg : string).

(** Replies of ['login-user']: [{ success: true, user }] or
    [{ success: false, message }]. *)
Inductive LoginReply : Type :=
| LoginOk (user : User)
| LoginFail (msg : string).

#[global] Instance RegisterReply_eq_dec : EqDecision RegisterReply.
Proof. solve_decision. Defined.
#[global] Instance LoginReply_eq_dec : EqDecision LoginReply.
Proof. solve_decision. Defined.

(** What the main process does to the world while a handler is suspended at
    an [await]: the net effect of the requests it serves meanwhile. *)
Definition meanwhile (others : World -> World) : Js unit :=
  fun w => (Normal tt, others w).

Section Auth.

(** [bcrypt.hash(data, saltRounds)] with the salt it draws made explicit,
    and [bcrypt.compare(data, encrypted)]. *)
Variable bcrypt_hash : string -> Z -> string -> string.
Variable bcrypt_compare : string -> string -> bool.

(** [async function hashPassword(password)] *)
Definition hashPassword (password salt : string) : string :=
  let saltRounds := 10 in
  bcrypt_hash password saltRounds salt.

(** [async function comparePassword(password, hash)] *)
Definition comparePassword (password hash : string) : bool :=
  bcrypt_compare password hash.

(** [ipcMain.handle('register-user', ...)].  The handler is suspended
    while [hashPassword] runs; [others] is what happens to the world in
    between, so that the existence check and the INSERT may see different
    tables. *)
Definition register_user_await (others : World -> World)
    (userData : UserData) (salt : string) : Js RegisterReply :=
  tryCatch
    (existingUser ← getUserByEmail (ud_email userData);
     match existingUser with
     | Some _ => mret (RegisterFail "Email already registered")
     | None =>
         meanwhile others;;
         let hashedPassword := hashPassword (ud_password userData) salt in
         userId ← saveUserToDB
           {| ud_name := ud_name userData;
              ud_email := ud_email userData;
              ud_password := hashedPassword |};
         mret (RegisterOk userId)
     end)
    (fun error => mret (RegisterFail (message error))).

(** The handler served with no other request in between. *)
Definition register_user (userData : UserData) (salt : string) : Js RegisterReply :=
  register_user_await (fun w => w) userData salt.

(** The preferences a fresh login starts from:
    [{ darkMode: false, lastUsedAI: 'claude' }]. *)
Definition default_preferences : gmap string JsonValue :=
  {[ "darkMode" := JBool false; "lastUsedAI" := JString "claude" ]}.

(** [ipcMain.handle('login-user', ...)], served with no other request in
    between; [now1] and [now2] are the clock readings of its [saveSession]. *)
Definition login_user (loginData : LoginData) (now1 now2 : Z) : Js LoginReply :=
  tryCatch
    (user ← getUserByEmail (login_email loginData);
     match user with
     | None => mret (LoginFail "User not found")
     | Some user =>
         let passwordMatch := comparePassword (login_password loginData) (row_password user) in
         if negb passwordMatch then mret (LoginFail "Invalid password")
         else
           let cu :=
             {| user_id := row_id user;
                user_name := row_name user;
                user_email := row_email user;
                user_preferences := Some default_preferences |} in
           set_currentUser (Some cu);;
           saveSession cu now1 now2;;
           mret (LoginOk cu)
     end)
    (fun error => mret (LoginFail (message error))).

End Auth.

(** ** Vocabulary of the properties *)

(** The durable record holds user [u] with creation time [T]. *)
Definition session_record (T : Z) (u : User) (w : World) : Prop :=
  exists expiresAt,
    userSessionFile w = Some (JsonText (Some (mkSessionData (Some u) (Some T) expiresAt))).

(** A session for [u] was established at time [T]: the cache holds a user
    whose saved form is [u], and the durable record holds [u] stamped [T].
    This is the state [saveSession] leaves when called on [currentUser]. *)
Definition session_established (T : Z) (u : User) (w : World) : Prop :=
  (exists cu, currentUser w = Some cu /\ session_user cu = u) /\ session_record T u w.

(** The record satisfies [expiresAt = timestamp + SESSION_TIMEOUT]. *)
Definition expiry_consistent (w : World) : Prop :=
  exists u T,
    userSessionFile w =
      Some (JsonText (Some (mkSessionData (Some u) (Some T) (Some (T + SESSION_TIMEOUT))))).

(** [restore()] called [S n] times in a row at clock reading [now]. *)
Fixpoint restore_repeatedly (n : nat) (now : Z) (w : World) : Completion bool * World :=
  match n with
  | O => loadSavedSession now w
  | S k => loadSavedSession now (world (restore_repeatedly k now w))
  end.

(** Content a healthy session file never has: text that does not parse, or
    JSON without a truthy [user] and [timestamp]. *)
Definition unparseable (content : FileContent) : bool :=
  match content with
  | Unparseable _ => true
  | JsonText _ => false
  end.

Definition invalid_content (content : FileContent) : bool :=
  match content with
  | Unparseable _ => true
  | JsonText v => bool_decide (session_fields v = None)
  end.

(** The columns of a row other than the password hash, and the database
    seen through them. *)
Definition public_row (r : UserRow) : Z * string * string :=
  (row_id r, row_name r, row_email r).

Definition public_db (d : Database) : list (Z * string * string) * Z :=
  (map public_row (rows d), seq d).

(** A stand-in for bcrypt on which the handlers can be run: the encoded
    string is the password, a separator and the salt, and verification
    checks that the hash starts with the password and the separator. *)
Definition demo_hash (data : string) (saltRounds : Z) (salt : string) : string :=
  (data +:+ "$") +:+ salt.

Definition demo_compare (data encrypted : string) : bool :=
  String.prefix (data +:+ "$") encrypted.

(** ** A concrete run, used to exercise the statements below *)

(** The process at its first start: nobody logged in, no session file, an
    empty [user] table. *)
Definition fresh_world : World := mkWorld None None (mkDatabase [] 0).

Definition alice : UserData := mkUserData "Alice" "a@x.com" "pw123".

Definition alice_login : LoginData := mkLoginData "a@x.com" "pw123".

Definition alice_registered : World :=
  world (register_user demo_hash alice "salt" fresh_world).

(** Alice logged in at clock reading [1000]. *)
Definition alice_logged_in : World :=
  world (login_user demo_compare alice_login 1000 1000 alice_registered).

Definition alice_user : User :=
  mkUser 1 "Alice" "a@x.com" (Some default_preferences).

(** ** The rest of the main process *)

(** [db.prepare("SELECT * FROM user WHERE id = ?").get(id)] *)
Definition lookup_id (id : Z) (d : Database) : option UserRow :=
  List.find (fun r => row_id r =? id) (rows d).

Definition select_user_by_id (id : Z) : Js (option UserRow) :=
  fun w => (Normal (lookup_id id (db w)), w).

(** [async function getUserById(id)] *)
Definition getUserById (id : Z) : Js (option UserRow) :=
  tryCatch
    (user ← select_user_by_id id;
     mret user)
    (fun error => throw error).

(** [ipcMain.handle('load-cookies', ...)]: [{ success, message }] *)
Definition load_cookies (aiType : string) : Js (bool * string) :=
  mret (true, "Cookie loading disabled - using fresh session").

(** A new process on the same machine: the module is evaluated again, so
    [let currentUser = null], while the session file and the database file
    are what the previous process left. *)
Definition restart (w : World) : World :=
  mkWorld None (userSessionFile w) (db w).

(** *** The window *)

(** The main process together with what it has asked of Electron: the
    preload scripts set on the window's session and the file loaded in
    [mainWindow] ([None] before the first [loadFile]).  Paths are written
    relative to the directory of [main.js]. *)
Record App : Type := mkApp {
  app_world : World;
  sessionPreloads : list string;
  loadedFile : option string
}.

(** [function switchPreloadScript(scriptName)] *)
Definition switchPreloadScript (scriptName : string) (a : App) : App :=
  let preloadPath := "../preload/" +:+ scriptName in
  mkApp (app_world a) [preloadPath] (loadedFile a).

(** [mainWindow.loadFile(path)] *)
Definition loadFile (file : string) (a : App) : App :=
  mkApp (app_world a) (sessionPreloads a) (Some file).

(** [function createWindow()]: a new [BrowserWindow], then the page chosen
    by [loadSavedSession()]; [currentTime] is the clock reading of the
    latter. *)
Definition createWindow (currentTime : Z) (a : App) : App :=
  let mainWindow := mkApp (app_world a) (sessionPreloads a) None in
  match loadSavedSession currentTime (app_world mainWindow) with
  | (Normal hasValidSession, w) =>
      let mainWindow := mkApp w (sessionPreloads mainWindow) (loadedFile mainWindow) in
      if hasValidSession then
        loadFile "../renderer/home.html" (switchPreloadScript "home-preload.js" mainWindow)
      else
        loadFile "../renderer/index.html" mainWindow
  | (Throw error, w) => mkApp w (sessionPreloads mainWindow) (loadedFile mainWindow)
  end.

(** [ipcMain.on('navigate-to-home', ...)] *)
Definition navigate_to_home (a : App) : App :=
  match currentUser (app_world a) with
  | None => a
  | Some _ =>
      loadFile "../renderer/home.html" (switchPreloadScript "home-preload.js" a)
  end.

(** [ipcMain.on('logout', ...)] in full.  The browsing storage of the three
    partitions is outside the modelled state; [storageCleared] tells whether
    [Promise.all] of the three [clearStorageData()] resolved or rejected. *)
Definition logout_request (storageCleared : bool) (a : App) : App :=
  let a1 := mkApp (world (clearSession (app_world a))) (sessionPreloads a) (loadedFile a) in
  let a2 := switchPreloadScript "preload.js" a1 in
  if storageCleared then loadFile "../renderer/index.html" a2
  else loadFile "../renderer/index.html" a2.

(** *** The filter on [before-input-event] *)

(** The fields of [input] the listener reads. *)
Record KeyInput : Type := mkKeyInput {
  input_key : string;
  input_control : bool;
  input_shift : bool;
  input_meta : bool;
  input_alt : bool
}.

(** [String.prototype.toLowerCase] on the characters of a key name: the
    letters [A] to [Z] are mapped to [a] to [z], any other byte stays. *)
Definition lower_ascii (c : Ascii.ascii) : Ascii.ascii :=
  let n := Ascii.N_of_ascii c in
  if ((65 <=? n) && (n <=? 90))%N then Ascii.ascii_of_N (n + 32) else c.

Fixpoint toLowerCase (s : string) : string :=
  match s with
  | EmptyString => EmptyString
  | String c rest => String (lower_ascii c) (toLowerCase rest)
  end.

(** The listener of ['before-input-event']: [true] when it calls
    [event.preventDefault()]. *)
Definition before_input_event (input : KeyInput) : bool :=
  String.eqb (input_key input) "F12"
  || (input_control input && input_shift input
      && String.eqb (toLowerCase (input_key input)) "i")
  || (input_meta input && input_alt input
      && String.eqb (toLowerCase (input_key input)) "i").

(** *** Requests served in sequence *)

(** The messages the renderer sends over the channels of [ipcMain], with the
    clock readings, salt and storage outcome their handlers will meet. *)
Inductive Request : Type :=
| RegisterUser (userData : UserData) (salt : string)
| LoginUser (loginData : LoginData) (now1 now2 : Z)
| GetCurrentUser (currentTime now1 now2 : Z)
| NavigateToHome
| Logout (storageCleared : bool)
| SaveUserPreferences (preferences : gmap string JsonValue) (now1 now2 : Z)
| SessionActivity (now1 now2 : Z)
| ValidateSession (currentTime : Z)
| LoadCookies (aiType : string).

(** A handler that only touches the module state, run inside the app. *)
Definition in_world {A : Type} (handler : Js A) (a : App) : App :=
  mkApp (world (handler (app_world a))) (sessionPreloads a) (loadedFile a).

Section Dispatch.

Variable bcrypt_hash : string -> Z -> string -> string.
Variable bcrypt_compare : string -> string -> bool.

(** One request, routed to the handler registered for its channel. *)
Definition serve (request : Request) (a : App) : App :=
  match request with
  | RegisterUser userData salt => in_world (register_user bcrypt_hash userData salt) a
  | LoginUser loginData now1 now2 => in_world (login_user bcrypt_compare loginData now1 now2) a
  | GetCurrentUser currentTime now1 now2 => in_world (get_current_user currentTime now1 now2) a
  | NavigateToHome => navigate_to_home a
  | Logout storageCleared => logout_request storageCleared a
  | SaveUserPreferences preferences now1 now2 =>
      in_world (save_user_preferences preferences now1 now2) a
  | SessionActivity now1 now2 => in_world (session_activity now1 now2) a
  | ValidateSession currentTime => in_world (validate_session currentTime) a
  | LoadCookies aiType => in_world (load_cookies aiType) a
  end.

(** The requests of a list served one after the other. *)
Definition serve_all (requests : list Request) (a : App) : App :=
  foldl (fun a request => serve request a) a requests.

End Dispatch.

(** *** [getDatabasePath] of [database.js] *)


Section DatabasePath.

(** [__dirname], [app.getPath('userData')] and [process.resourcesPath]. *)
Variable dirname userDataPath resourcesPath : string.


End DatabasePath.

(** *** Vocabulary of the further properties *)

(** The cache and the session file agree: a session file is a record as
    [saveSession] writes it, and a cached user is the one that record holds. *)
Definition session_coherent (w : World) : Prop :=
  (forall cu : User, currentUser w = Some cu ->
     exists T e,
       userSessionFile w =
         Some (JsonText (Some (mkSessionData (Some (session_user cu)) (Some T) e)))) /\
  (forall content : FileContent, userSessionFile w = Some content ->
     exists u T e,
       content = JsonText (Some (mkSessionData (Some (session_user u)) (Some T) e))).

(** No two rows share an email or an id. *)
Definition unique_rows (d : Database) : Prop :=
  NoDup (map row_email (rows d)) /\ NoDup (map row_id (rows d)).

Definition fresh_app : App := mkApp fresh_world [] None.

(** [get-current-user] asked once for each entry of a list, an entry giving
    the three clock readings of the call; the answers in order and the world
    the last call leaves. *)
Fixpoint poll (readings : list (Z * Z * Z)) (w : World)
    : list (Completion (option User)) * World :=
  match readings with
  | [] => ([], w)
  | (currentTime, now1, now2) :: rest =>
      let r := get_current_user currentTime now1 now2 w in
      let (answers, w') := poll rest (world r) in
      (result r :: answers, w')
  end.

(** Each call comes less than [SESSION_TIMEOUT] after the timestamp the
    previous one stored (the first after [T]), and stores a non-zero one. *)
Fixpoint within_timeout (T : Z) (readings : list (Z * Z * Z)) : Prop :=
  match readings with
  | [] => True
  | (currentTime, now1, _) :: rest =>
      currentTime - T < SESSION_TIMEOUT /\ now1 <> 0 /\ within_timeout now1 rest
  end.

(** A run of requests against a fresh installation. *)
Definition alice_requests : list Request :=
  [RegisterUser alice "salt";
   LoginUser alice_login 1000 1000;
   SaveUserPreferences {[ "darkMode" := JBool true ]} 1500 1500;
   NavigateToHome;
   GetCurrentUser 2000 2001 2001;
   RegisterUser (mkUserData "Mallory" "a@x.com" "hunter2") "pepper";
   SessionActivity 3000 3000].

(** * Properties *)

(** ** How the session functions run *)

(** Unfolds the monad so that a computation applied to a world reduces. *)
Ltac js_unfold :=
  unfold get_currentUser, set_currentUser,
    fs_existsSync, fs_readFileSync, fs_writeFileSync, fs_unlinkSync,
    JSON_parse, JSON_stringify, meanwhile, result, world,
    tryCatch, throw, mbind, Js_bind, mret, Js_ret in *.

(** Runs a computation as far as the equation [H] on the world decides. *)
Ltac js_run H := repeat (progress (try rewrite H; simpl)).

Lemma SESSION_TIMEOUT_24h : SESSION_TIMEOUT = 86400000.
Proof. reflexivity. Qed.

(** What [saveSession] writes is read back unchanged. *)
Lemma JSON_parse_stringify (sessionData : SessionData) (w : World) :
  JSON_parse (JSON_stringify sessionData) w = (Normal (Some sessionData), w).
Proof. reflexivity. Qed.

Lemma clearSession_run (w : World) :
  clearSession w = (Normal tt, mkWorld None None (db w)).
Proof.
  unfold clearSession. js_unfold.
  destruct (userSessionFile w) eqn:Hf; simpl; rewrite ?Hf; reflexivity.
Qed.

Lemma saveSession_run (userData : User) (now1 now2 : Z) (w : World) :
  saveSession userData now1 now2 w =
    (Normal tt,
     mkWorld (currentUser w)
       (Some (JsonText (Some (mkSessionData (Some (session_user userData))
                                (Some now1) (Some (now2 + SESSION_TIMEOUT))))))
       (db w)).
Proof. reflexivity. Qed.

Lemma refreshSession_run (now1 now2 : Z) (w : World) :
  refreshSession now1 now2 w =
    match currentUser w with
    | Some u => saveSession u now1 now2 w
    | None => (Normal tt, w)
    end.
Proof.
  unfold refreshSession. js_unfold. destruct (currentUser w); reflexivity.
Qed.

(** [loadSavedSession] by cases on the session file. *)
Lemma loadSavedSession_no_file (now : Z) (w : World) :
  userSessionFile w = None ->
  loadSavedSession now w = (Normal false, w).
Proof.
  intros Hf. unfold loadSavedSession. js_unfold. js_run Hf. reflexivity.
Qed.

Lemma loadSavedSession_unparseable (now : Z) (w : World) (raw : string) :
  userSessionFile w = Some (Unparseable raw) ->
  loadSavedSession now w = (Normal false, mkWorld None None (db w)).
Proof.
  intros Hf. unfold loadSavedSession. js_unfold. js_run Hf.
  rewrite clearSession_run. reflexivity.
Qed.

Lemma loadSavedSession_invalid (now : Z) (w : World) (v : option SessionData) :
  userSessionFile w = Some (JsonText v) ->
  session_fields v = None ->
  loadSavedSession now w = (Normal false, w).
Proof.
  intros Hf Hv. unfold loadSavedSession. js_unfold. js_run Hf.
  rewrite Hv. reflexivity.
Qed.

Lemma loadSavedSession_fresh (now : Z) (w : World) (v : option SessionData)
    (u : User) (ts : Z) :
  userSessionFile w = Some (JsonText v) ->
  session_fields v = Some (u, ts) ->
  now - ts < SESSION_TIMEOUT ->
  loadSavedSession now w = (Normal true, mkWorld (Some u) (userSessionFile w) (db w)).
Proof.
  intros Hf Hv Hage. unfold loadSavedSession. js_unfold. js_run Hf.
  rewrite Hv. apply Z.ltb_lt in Hage. rewrite Hage. rewrite ?Hf. reflexivity.
Qed.

Lemma loadSavedSession_expired (now : Z) (w : World) (v : option SessionData)
    (u : User) (ts : Z) :
  userSessionFile w = Some (JsonText v) ->
  session_fields v = Some (u, ts) ->
  SESSION_TIMEOUT <= now - ts ->
  loadSavedSession now w = (Normal false, mkWorld None None (db w)).
Proof.
  intros Hf Hv Hage. unfold loadSavedSession. js_unfold. js_run Hf.
  rewrite Hv. apply Z.ltb_ge in Hage. rewrite Hage.
  rewrite clearSession_run. reflexivity.
Qed.

(** [loadSavedSession] never throws and never touches the database. *)
Lemma loadSavedSession_total (now : Z) (w : World) :
  exists b w', loadSavedSession now w = (Normal b, w') /\ db w' = db w.
Proof.
  destruct (userSessionFile w) as [[raw|v]|] eqn:Hf.
  - eexists _, _. split; [eapply loadSavedSession_unparseable; eauto | reflexivity].
  - destruct (session_fields v) as [[u ts]|] eqn:Hv.
    + destruct (Z_lt_le_dec (now - ts) SESSION_TIMEOUT).
      * eexists _, _. split; [eapply loadSavedSession_fresh; eauto | reflexivity].
      * eexists _, _. split; [eapply loadSavedSession_expired; eauto | reflexivity].
    + eexists _, _. split; [eapply loadSavedSession_invalid; eauto | reflexivity].
  - eexists _, _. split; [eapply loadSavedSession_no_file; eauto | reflexivity].
Qed.

Lemma session_fields_record (u : User) (T : Z) (e : option Z) :
  T <> 0 ->
  session_fields (Some (mkSessionData (Some u) (Some T) e)) = Some (u, T).
Proof.
  intros HT. unfold session_fields, truthy_number. simpl.
  destruct (Z.eqb_spec T 0); [contradiction | reflexivity].
Qed.

(** [get-current-user] by cases. *)
Lemma get_current_user_no_cache (currentTime now1 now2 : Z) (w : World) :
  currentUser w = None ->
  get_current_user currentTime now1 now2 w = (Normal None, w).
Proof.
  intros Hc. unfold get_current_user. js_unfold. rewrite Hc. reflexivity.
Qed.

Lemma get_current_user_run (currentTime now1 now2 : Z) (w : World) (cu : User) (b : bool) (w' : World) :
  currentUser w = Some cu ->
  loadSavedSession currentTime w = (Normal b, w') ->
  get_current_user currentTime now1 now2 w =
    if b then
      match currentUser w' with
      | Some u => (Normal (Some u), world (saveSession u now1 now2 w'))
      | None => (Normal None, w')
      end
    else (Normal None, w').
Proof.
  intros Hc Hl. unfold get_current_user.
  unfold mbind at 1. unfold Js_bind, get_currentUser at 1. rewrite Hc.
  unfold mbind at 1. unfold Js_bind. rewrite Hl.
  destruct b; [| reflexivity].
  unfold mbind, Js_bind. rewrite refreshSession_run.
  destruct (currentUser w') eqn:Hc'; unfold get_currentUser.
  - rewrite saveSession_run. simpl. rewrite Hc'. reflexivity.
  - rewrite Hc'. reflexivity.
Qed.

(** ** Expiry of an established session *)

Lemma established_load_fresh (T : Z) (u : User) (w : World) (T' : Z) :
  session_established T u w -> T <> 0 -> T' - T < SESSION_TIMEOUT ->
  loadSavedSession T' w = (Normal true, mkWorld (Some u) (userSessionFile w) (db w)).
Proof.
  intros [_ [e Hf]] HT Hage.
  eapply loadSavedSession_fresh; eauto using session_fields_record.
Qed.

Lemma established_load_expired (T : Z) (u : User) (w : World) (T' : Z) :
  session_established T u w -> T <> 0 -> SESSION_TIMEOUT <= T' - T ->
  loadSavedSession T' w = (Normal false, mkWorld None None (db w)).
Proof.
  intros [_ [e Hf]] HT Hage.
  eapply loadSavedSession_expired; eauto using session_fields_record.
Qed.

Lemma established_current_user_fresh (T : Z) (u : User) (w : World) (T' now1 now2 : Z) :
  session_established T u w -> T <> 0 -> T' - T < SESSION_TIMEOUT ->
  get_current_user T' now1 now2 w =
    (Normal (Some u),
     mkWorld (Some u)
       (Some (JsonText (Some (mkSessionData (Some (session_user u))
                                (Some now1) (Some (now2 + SESSION_TIMEOUT))))))
       (db w)).
Proof.
  intros Hest HT Hage.
  pose proof (established_load_fresh T u w T' Hest HT Hage) as Hl.
  destruct Hest as [[cu [Hc _]] _].
  rewrite (get_current_user_run T' now1 now2 w cu true _ Hc Hl).
  reflexivity.
Qed.

Lemma session_user_idem (u : User) : session_user (session_user u) = session_user u.
Proof. reflexivity. Qed.

(** C2. A session established at time [T] (after the epoch, so that the
    stored timestamp is a non-zero number): [get-current-user] asked at a
    time [T'] with [T' - T < SESSION_TIMEOUT] answers the session's user;
    asked at a time [T'] with [T' - T >= SESSION_TIMEOUT] it answers [null],
    and the session file is deleted and the cache emptied. *)
Theorem current_user_until_expiry (T : Z) (u : User) (w : World) (T' now1 now2 : Z) :
  session_established T u w ->
  T <> 0 ->
  (T' - T < SESSION_TIMEOUT ->
     result (get_current_user T' now1 now2 w) = Normal (Some u)) /\
  (T' - T >= SESSION_TIMEOUT ->
     result (get_current_user T' now1 now2 w) = Normal None /\
     userSessionFile (world (get_current_user T' now1 now2 w)) = None /\
     currentUser (world (get_current_user T' now1 now2 w)) = None).
Proof.
  intros Hest HT. split; intros Hage.
  - rewrite (established_current_user_fresh T u w T' now1 now2 Hest HT Hage).
    reflexivity.
  - assert (Hl : loadSavedSession T' w = (Normal false, mkWorld None None (db w)))
      by (apply (established_load_expired T u); [assumption | assumption | lia]).
    destruct Hest as [[cu [Hc _]] _].
    rewrite (get_current_user_run T' now1 now2 w cu false _ Hc Hl).
    repeat split.
Qed.

(** Stored at the epoch itself, the timestamp is the falsy number [0] and
    the record is not recognised as a session; it is not deleted either. *)
Lemma loadSavedSession_timestamp_zero (u : User) (e : option Z) (now : Z) (w : World) :
  userSessionFile w = Some (JsonText (Some (mkSessionData (Some u) (Some 0) e))) ->
  loadSavedSession now w = (Normal false, w).
Proof. intros Hf. eapply loadSavedSession_invalid; eauto. Qed.

(** ** Refresh *)

Lemma refresh_established (T : Z) (u : User) (w : World) (T2 now2 : Z) :
  session_established T u w ->
  session_established T2 u (world (refreshSession T2 now2 w)).
Proof.
  intros [[cu [Hc Hu]] _]. rewrite refreshSession_run, Hc, saveSession_run.
  unfold world; simpl. split.
  - exists cu. split; assumption.
  - exists (Some (now2 + SESSION_TIMEOUT)). simpl. rewrite Hu. reflexivity.
Qed.

(** C6. A session established at [T] and refreshed at [T2], with
    [T2 - T < SESSION_TIMEOUT] and [T2] after the epoch: the record is
    rewritten with the same user and the timestamp [T2], and the session is
    valid at every time before [T2 + SESSION_TIMEOUT], while without the
    refresh it is invalid from [T + SESSION_TIMEOUT] on.  With no current
    user, [refreshSession] changes nothing. *)
Theorem refresh_slides_expiry :
  (forall (T : Z) (u : User) (w : World) (T2 now2 : Z),
     session_established T u w ->
     T2 - T < SESSION_TIMEOUT ->
     T2 <> 0 ->
     let w2 := world (refreshSession T2 now2 w) in
     session_record T2 u w2 /\
     currentUser w2 = currentUser w /\
     (forall T' a b : Z,
        T' < T2 + SESSION_TIMEOUT ->
        result (validate_session T' w2) = Normal true /\
        result (get_current_user T' a b w2) = Normal (Some u)) /\
     (forall T' : Z,
        T + SESSION_TIMEOUT <= T' ->
        result (validate_session T' w) = Normal false)) /\
  (forall (w : World) (now1 now2 : Z),
     currentUser w = None ->
     refreshSession now1 now2 w = (Normal tt, w)).
Proof.
  split.
  - intros T u w T2 now2 Hest Hlt HT2 w2.
    pose proof (refresh_established T u w T2 now2 Hest) as Hest2.
    fold w2 in Hest2. split; [apply Hest2 |]. split.
    + subst w2. rewrite refreshSession_run.
      destruct (currentUser w) eqn:Hc; unfold world; simpl; exact Hc.
    + split.
      * intros T' a b HT'. split.
        -- unfold validate_session.
           rewrite (established_load_fresh T2 u w2 T' Hest2 HT2); [reflexivity | lia].
        -- rewrite (established_current_user_fresh T2 u w2 T' a b Hest2 HT2);
             [reflexivity | lia].
      * intros T' HT'. unfold validate_session.
        destruct (Z.eq_dec T 0) as [-> | HT].
        -- destruct Hest as [_ [e Hf]].
           rewrite (loadSavedSession_timestamp_zero u e T' w Hf). reflexivity.
        -- rewrite (established_load_expired T u w T' Hest HT); [reflexivity | lia].
  - intros w now1 now2 Hc. rewrite refreshSession_run, Hc. reflexivity.
Qed.

(** ** Restore is idempotent *)

Lemma loadSavedSession_twice (now : Z) (w : World) :
  loadSavedSession now (world (loadSavedSession now w)) = loadSavedSession now w.
Proof.
  destruct (userSessionFile w) as [[raw|v]|] eqn:Hf.
  - rewrite (loadSavedSession_unparseable now w raw Hf). unfold world; simpl.
    apply loadSavedSession_no_file. reflexivity.
  - destruct (session_fields v) as [[u ts]|] eqn:Hv.
    + destruct (Z_lt_le_dec (now - ts) SESSION_TIMEOUT) as [Hlt | Hge].
      * rewrite (loadSavedSession_fresh now w v u ts Hf Hv Hlt). unfold world; simpl.
        rewrite Hf.
        rewrite (loadSavedSession_fresh now _ v u ts); [| reflexivity | assumption | assumption].
        simpl. reflexivity.
      * rewrite (loadSavedSession_expired now w v u ts Hf Hv Hge). unfold world; simpl.
        apply loadSavedSession_no_file. reflexivity.
    + rewrite (loadSavedSession_invalid now w v Hf Hv). unfold world; simpl.
      apply (loadSavedSession_invalid now w v Hf Hv).
  - rewrite (loadSavedSession_no_file now w Hf). unfold world; simpl.
    apply (loadSavedSession_no_file now w Hf).
Qed.

(** C7. At a fixed clock reading, from any world: every further call of
    [loadSavedSession] (the body of [validate-session]) returns the boolean
    of the first call and leaves the cache, the session file and the
    database exactly as the first call left them. *)
Theorem restore_idempotent (n : nat) (now : Z) (w : World) :
  restore_repeatedly n now w = loadSavedSession now w /\
  validate_session now (world (validate_session now w)) = validate_session now w.
Proof.
  split; [| apply loadSavedSession_twice].
  induction n as [| k IH]; simpl.
  - reflexivity.
  - rewrite IH. apply loadSavedSession_twice.
Qed.

(** ** Preferences *)

Lemma save_user_preferences_run (patch : gmap string JsonValue) (now1 now2 : Z)
    (w : World) (u : User) :
  currentUser w = Some u ->
  let u' := mkUser (user_id u) (user_name u) (user_email u)
              (Some (patch ∪ default ∅ (user_preferences u))) in
  save_user_preferences patch now1 now2 w =
    (Normal tt,
     mkWorld (Some u')
       (Some (JsonText (Some (mkSessionData (Some u') (Some now1)
                                (Some (now2 + SESSION_TIMEOUT))))))
       (db w)).
Proof.
  intros Hc u'. unfold save_user_preferences. js_unfold. js_run Hc. reflexivity.
Qed.

(** C8. With no current user the handler of [save-user-preferences] does
    nothing.  Otherwise the cached user gets the shallow merge of its
    preferences with the patch (a key of the patch takes the patch's value,
    any other key keeps the old one), and the session file is rewritten with
    the updated user, exactly as [refreshSession] would write it. *)
Theorem save_user_preferences_merges (patch : gmap string JsonValue)
    (now1 now2 : Z) (w : World) :
  (currentUser w = None ->
     save_user_preferences patch now1 now2 w = (Normal tt, w)) /\
  (forall u : User, currentUser w = Some u ->
     exists merged : gmap string JsonValue,
       (forall k v, patch !! k = Some v -> merged !! k = Some v) /\
       (forall k, patch !! k = None ->
                  merged !! k = default ∅ (user_preferences u) !! k) /\
       let u' := mkUser (user_id u) (user_name u) (user_email u) (Some merged) in
       let w' := world (save_user_preferences patch now1 now2 w) in
       result (save_user_preferences patch now1 now2 w) = Normal tt /\
       currentUser w' = Some u' /\
       userSessionFile w' =
         Some (JsonText (Some (mkSessionData (Some u') (Some now1)
                                  (Some (now2 + SESSION_TIMEOUT))))) /\
       db w' = db w /\
       w' = world (refreshSession now1 now2
                     (mkWorld (Some u') (userSessionFile w) (db w)))).
Proof.
  split.
  - intros Hc. unfold save_user_preferences. js_unfold. js_run Hc. reflexivity.
  - intros u Hc. exists (patch ∪ default ∅ (user_preferences u)).
    split; [| split].
    + intros k v Hk. apply lookup_union_Some_l. exact Hk.
    + intros k Hk. apply lookup_union_r. exact Hk.
    + rewrite (save_user_preferences_run patch now1 now2 w u Hc).
      unfold result, world; simpl. repeat split.
Qed.

(** ** The stored expiry *)

Lemma saveSession_expiry (u : User) (now1 now2 : Z) (w : World) :
  userSessionFile (world (saveSession u now1 now2 w)) =
    Some (JsonText (Some (mkSessionData (Some (session_user u)) (Some now1)
                             (Some (now2 + SESSION_TIMEOUT))))).
Proof. reflexivity. Qed.

(** ** Corrupt session files *)

Lemma invalid_content_load (content : FileContent) (now : Z) (w : World) :
  userSessionFile w = Some content ->
  invalid_content content = true ->
  result (loadSavedSession now w) = Normal false.
Proof.
  intros Hf Hinv. destruct content as [raw | v]; simpl in Hinv.
  - rewrite (loadSavedSession_unparseable now w raw Hf). reflexivity.
  - apply bool_decide_eq_true in Hinv.
    rewrite (loadSavedSession_invalid now w v Hf Hinv). reflexivity.
Qed.

(** C3, as the code has it.  The session file holds text that does not
    parse, or JSON without a usable [user] and [timestamp]: [loadSavedSession]
    returns [false] and [get-current-user] returns [null], as they do when
    there is no file.  When the text does not parse, [loadSavedSession]
    deletes the file and empties the cache, and so does [get-current-user]
    when the cache holds a user; with an empty cache [get-current-user]
    returns without reading the file and leaves the world as it is. *)
Theorem corrupt_session_like_absent (content : FileContent) (w : World)
    (now now1 now2 : Z) :
  userSessionFile w = Some content ->
  invalid_content content = true ->
  let absent := mkWorld (currentUser w) None (db w) in
  (result (loadSavedSession now w) = Normal false /\
   result (loadSavedSession now absent) = Normal false) /\
  (result (get_current_user now now1 now2 w) = Normal None /\
   result (get_current_user now now1 now2 absent) = Normal None) /\
  (unparseable content = true ->
     world (loadSavedSession now w) = mkWorld None None (db w)) /\
  (unparseable content = true -> is_Some (currentUser w) ->
     world (get_current_user now now1 now2 w) = mkWorld None None (db w)) /\
  (currentUser w = None ->
     world (get_current_user now now1 now2 w) = w).
Proof.
  intros Hf Hinv absent.
  assert (Habs : loadSavedSession now absent = (Normal false, absent))
    by (apply loadSavedSession_no_file; reflexivity).
  pose proof (invalid_content_load content now w Hf Hinv) as Hload.
  split; [| split; [| split; [| split]]].
  - split; [exact Hload | rewrite Habs; reflexivity].
  - split.
    + destruct (currentUser w) as [cu |] eqn:Hc.
      * destruct (loadSavedSession_total now w) as (b & w' & Hl & _).
        rewrite Hl in Hload. unfold result in Hload; simpl in Hload.
        injection Hload as ->.
        rewrite (get_current_user_run now now1 now2 w cu false w' Hc Hl). reflexivity.
      * rewrite (get_current_user_no_cache now now1 now2 w Hc). reflexivity.
    + destruct (currentUser w) as [cu |] eqn:Hc.
      * rewrite (get_current_user_run now now1 now2 absent cu false absent eq_refl Habs).
        reflexivity.
      * rewrite (get_current_user_no_cache now now1 now2 absent eq_refl). reflexivity.
  - intros Hun. destruct content as [raw | v]; [| discriminate].
    rewrite (loadSavedSession_unparseable now w raw Hf). reflexivity.
  - intros Hun [cu Hc]. destruct content as [raw | v]; [| discriminate].
    rewrite (get_current_user_run now now1 now2 w cu false _ Hc
               (loadSavedSession_unparseable now w raw Hf)).
    reflexivity.
  - intros Hc. rewrite (get_current_user_no_cache now now1 now2 w Hc). reflexivity.
Qed.

(** The claim of C3 as first stated fails on two inputs.  With an empty cache
    and a file of unparseable text, [get-current-user] answers [null] and
    the file is still there; with a file holding the JSON object [{}],
    [loadSavedSession] answers [false] and the file is still there. *)
Lemma corrupt_record_not_always_cleared :
  let garbage := mkWorld None (Some (Unparseable "{oops")) (mkDatabase [] 0) in
  let hollow :=
    mkWorld None (Some (JsonText (Some (mkSessionData None None None))))
      (mkDatabase [] 0) in
  (invalid_content (Unparseable "{oops") = true /\
   result (get_current_user 5 6 7 garbage) = Normal None /\
   userSessionFile (world (get_current_user 5 6 7 garbage)) =
     Some (Unparseable "{oops")) /\
  (invalid_content (JsonText (Some (mkSessionData None None None))) = true /\
   result (loadSavedSession 5 hollow) = Normal false /\
   userSessionFile (world (loadSavedSession 5 hollow)) =
     Some (JsonText (Some (mkSessionData None None None)))).
Proof. vm_compute. repeat split. Qed.

(** ** The credential store *)

Lemma getUserByEmail_run (email : string) (w : World) :
  getUserByEmail email w = (Normal (lookup_email email (db w)), w).
Proof. reflexivity. Qed.

Lemma saveUserToDB_taken (userData : UserData) (w : World) (row : UserRow) :
  lookup_email (ud_email userData) (db w) = Some row ->
  saveUserToDB userData w =
    (Throw (SqliteError "UNIQUE constraint failed: user.email"), w).
Proof.
  intros Hl. unfold saveUserToDB, insert_user. js_unfold. js_run Hl. reflexivity.
Qed.

Lemma saveUserToDB_free (userData : UserData) (w : World) :
  lookup_email (ud_email userData) (db w) = None ->
  saveUserToDB userData w =
    (Normal (next_rowid (db w)),
     mkWorld (currentUser w) (userSessionFile w)
       (mkDatabase
          (rows (db w) ++
             [mkUserRow (next_rowid (db w)) (ud_name userData) (ud_email userData)
                (ud_password userData)])
          (next_rowid (db w)))).
Proof.
  intros Hl. unfold saveUserToDB, insert_user. js_unfold. js_run Hl. reflexivity.
Qed.

Lemma lookup_email_inserted (d : Database) (rowid : Z) (name email password : string) (s : Z) :
  lookup_email email d = None ->
  lookup_email email (mkDatabase (rows d ++ [mkUserRow rowid name email password]) s) =
    Some (mkUserRow rowid name email password).
Proof.
  unfold lookup_email. simpl. induction (rows d) as [| r l IH]; simpl.
  - intros _. rewrite String.eqb_refl. reflexivity.
  - destruct (String.eqb (row_email r) email); [discriminate | exact IH].
Qed.

(** A successful INSERT keeps every row the table had, and the row found
    for an email already present stays the one found. *)
Lemma lookup_email_kept (d : Database) (row new : UserRow) (email : string) (s : Z) :
  lookup_email email d = Some row ->
  lookup_email email (mkDatabase (rows d ++ [new]) s) = Some row.
Proof.
  unfold lookup_email. simpl. induction (rows d) as [| r l IH]; simpl.
  - discriminate.
  - destruct (String.eqb (row_email r) email); [intros H; exact H | exact IH].
Qed.

(** Rows that agree on their public columns are found together. *)
Lemma find_email_public (email : string) (l1 l2 : list UserRow) :
  map public_row l1 = map public_row l2 ->
  option_map public_row (List.find (fun r => String.eqb (row_email r) email) l1) =
  option_map public_row (List.find (fun r => String.eqb (row_email r) email) l2).
Proof.
  revert l2. induction l1 as [| r1 l1 IH]; intros [| r2 l2] Heq; simpl in *;
    try discriminate; [reflexivity |].
  unfold public_row at 1 3 in Heq. injection Heq as Hid Hname Hemail Hl.
  rewrite Hemail. destruct (String.eqb (row_email r2) email).
  - simpl. unfold public_row. congruence.
  - apply IH. exact Hl.
Qed.

Lemma lookup_email_public (email : string) (d1 d2 : Database) :
  public_db d1 = public_db d2 ->
  option_map public_row (lookup_email email d1) =
  option_map public_row (lookup_email email d2).
Proof.
  unfold public_db. intros Heq. injection Heq as Hrows _.
  apply find_email_public. exact Hrows.
Qed.

Lemma max_rowid_public (l1 l2 : list UserRow) :
  map public_row l1 = map public_row l2 ->
  foldr (fun r acc => Z.max (row_id r) acc) 0 l1 =
  foldr (fun r acc => Z.max (row_id r) acc) 0 l2.
Proof.
  revert l2. induction l1 as [| r1 l1 IH]; intros [| r2 l2] Heq; simpl in *;
    try discriminate; [reflexivity |].
  unfold public_row at 1 3 in Heq. injection Heq as Hid _ _ Hl.
  rewrite Hid, (IH l2 Hl). reflexivity.
Qed.

Lemma next_rowid_public (d1 d2 : Database) :
  public_db d1 = public_db d2 -> next_rowid d1 = next_rowid d2.
Proof.
  unfold public_db, next_rowid. intros Heq. injection Heq as Hrows Hseq.
  rewrite Hseq, (max_rowid_public _ _ Hrows). reflexivity.
Qed.

(** The stand-in verifies what it hashed. *)
Lemma prefix_append (s t : string) : String.prefix s (s +:+ t) = true.
Proof.
  induction s as [| c s IH]; simpl.
  - destruct t; reflexivity.
  - destruct (Ascii.ascii_dec c c) as [_ | Hne]; [exact IH | contradiction].
Qed.

Lemma demo_compare_hash (data : string) (saltRounds : Z) (salt : string) :
  demo_compare data (demo_hash data saltRounds salt) = true.
Proof. unfold demo_compare, demo_hash. apply prefix_append. Qed.

Section AuthProperties.

Variable bcrypt_hash : string -> Z -> string -> string.
Variable bcrypt_compare : string -> string -> bool.

(** *** How the handlers run *)

Lemma register_user_await_registered (others : World -> World)
    (userData : UserData) (salt : string) (w : World) (row : UserRow) :
  lookup_email (ud_email userData) (db w) = Some row ->
  register_user_await bcrypt_hash others userData salt w =
    (Normal (RegisterFail "Email already registered"), w).
Proof.
  intros Hl. unfold register_user_await. js_unfold.
  rewrite getUserByEmail_run, Hl. reflexivity.
Qed.

Lemma register_user_await_overtaken (others : World -> World)
    (userData : UserData) (salt : string) (w : World) (row : UserRow) :
  lookup_email (ud_email userData) (db w) = None ->
  lookup_email (ud_email userData) (db (others w)) = Some row ->
  register_user_await bcrypt_hash others userData salt w =
    (Normal (RegisterFail "UNIQUE constraint failed: user.email"), others w).
Proof.
  intros Hl Hl'. unfold register_user_await. js_unfold.
  rewrite getUserByEmail_run, Hl.
  erewrite saveUserToDB_taken by exact Hl'. reflexivity.
Qed.

Lemma register_user_await_free (others : World -> World)
    (userData : UserData) (salt : string) (w : World) :
  lookup_email (ud_email userData) (db w) = None ->
  lookup_email (ud_email userData) (db (others w)) = None ->
  register_user_await bcrypt_hash others userData salt w =
    (Normal (RegisterOk (next_rowid (db (others w)))),
     mkWorld (currentUser (others w)) (userSessionFile (others w))
       (mkDatabase
          (rows (db (others w)) ++
             [mkUserRow (next_rowid (db (others w))) (ud_name userData)
                (ud_email userData)
                (hashPassword bcrypt_hash (ud_password userData) salt)])
          (next_rowid (db (others w))))).
Proof.
  intros Hl Hl'. unfold register_user_await. js_unfold.
  rewrite getUserByEmail_run, Hl.
  erewrite saveUserToDB_free by exact Hl'. reflexivity.
Qed.

Lemma login_user_not_found (loginData : LoginData) (now1 now2 : Z) (w : World) :
  lookup_email (login_email loginData) (db w) = None ->
  login_user bcrypt_compare loginData now1 now2 w =
    (Normal (LoginFail "User not found"), w).
Proof.
  intros Hl. unfold login_user. js_unfold.
  rewrite getUserByEmail_run, Hl. reflexivity.
Qed.

Lemma login_user_mismatch (loginData : LoginData) (now1 now2 : Z) (w : World)
    (row : UserRow) :
  lookup_email (login_email loginData) (db w) = Some row ->
  bcrypt_compare (login_password loginData) (row_password row) = false ->
  login_user bcrypt_compare loginData now1 now2 w =
    (Normal (LoginFail "Invalid password"), w).
Proof.
  intros Hl Hcmp. unfold login_user, comparePassword. js_unfold.
  rewrite getUserByEmail_run, Hl, Hcmp. reflexivity.
Qed.

Lemma login_user_match (loginData : LoginData) (now1 now2 : Z) (w : World)
    (row : UserRow) :
  lookup_email (login_email loginData) (db w) = Some row ->
  bcrypt_compare (login_password loginData) (row_password row) = true ->
  let cu := mkUser (row_id row) (row_name row) (row_email row)
              (Some default_preferences) in
  login_user bcrypt_compare loginData now1 now2 w =
    (Normal (LoginOk cu),
     mkWorld (Some cu)
       (Some (JsonText (Some (mkSessionData (Some cu) (Some now1)
                                (Some (now2 + SESSION_TIMEOUT))))))
       (db w)).
Proof.
  intros Hl Hcmp cu. unfold login_user, comparePassword. js_unfold.
  rewrite getUserByEmail_run, Hl, Hcmp. reflexivity.
Qed.

(** A successful login establishes a session stamped with its first clock
    reading. *)
Lemma login_establishes_session (loginData : LoginData) (now1 now2 : Z)
    (w : World) (u : User) :
  result (login_user bcrypt_compare loginData now1 now2 w) = Normal (LoginOk u) ->
  session_established now1 u (world (login_user bcrypt_compare loginData now1 now2 w)).
Proof.
  destruct (lookup_email (login_email loginData) (db w)) as [row |] eqn:Hl.
  - destruct (bcrypt_compare (login_password loginData) (row_password row)) eqn:Hcmp.
    + rewrite (login_user_match loginData now1 now2 w row Hl Hcmp).
      unfold result, world; simpl. intros Hu. injection Hu as <-.
      split; [eexists; split; reflexivity | eexists; reflexivity].
    + rewrite (login_user_mismatch loginData now1 now2 w row Hl Hcmp). discriminate.
  - rewrite (login_user_not_found loginData now1 now2 w Hl). discriminate.
Qed.

(** *** Register, then log in *)

(** C1. With a [bcrypt] whose [compare] accepts what its [hash] produced:
    when the table holds no row with the email, [register-user] succeeds with
    the new row's id, and a later [login-user] with the same email and
    password, on any world whose table is the one registration left,
    succeeds and returns a user with exactly the registered email. *)
Theorem register_then_login (userData : UserData) (salt : string)
    (now1 now2 : Z) (w : World) :
  (forall data saltRounds s,
     bcrypt_compare data (bcrypt_hash data saltRounds s) = true) ->
  lookup_email (ud_email userData) (db w) = None ->
  exists userId : Z,
    result (register_user bcrypt_hash userData salt w) = Normal (RegisterOk userId) /\
    forall w' : World,
      db w' = db (world (register_user bcrypt_hash userData salt w)) ->
      exists u : User,
        result (login_user bcrypt_compare
                  (mkLoginData (ud_email userData) (ud_password userData))
                  now1 now2 w') = Normal (LoginOk u) /\
        user_email u = ud_email userData /\
        user_name u = ud_name userData /\
        user_id u = userId.
Proof.
  intros Hbcrypt Hfree. unfold register_user.
  rewrite (register_user_await_free (fun w => w) userData salt w Hfree Hfree).
  exists (next_rowid (db w)). split; [reflexivity |].
  unfold world; simpl. intros w' Hdb.
  pose proof (lookup_email_inserted (db w) (next_rowid (db w)) (ud_name userData)
                (ud_email userData)
                (hashPassword bcrypt_hash (ud_password userData) salt)
                (next_rowid (db w)) Hfree) as Hfound.
  rewrite <- Hdb in Hfound.
  eexists. split.
  - rewrite (login_user_match (mkLoginData (ud_email userData) (ud_password userData))
               now1 now2 w' _ Hfound); [reflexivity |].
    simpl. unfold hashPassword. apply Hbcrypt.
  - simpl. repeat split.
Qed.

(** *** Failed logins *)

(** C5. [login-user] with an email no row has answers ['User not found'];
    with the email of a row whose hash the password does not verify against
    it answers ['Invalid password']; either way the world (the cached user,
    the session file, the table) is left as it was. *)
Theorem login_failure_keeps_session (loginData : LoginData) (now1 now2 : Z)
    (w : World) :
  (lookup_email (login_email loginData) (db w) = None ->
     login_user bcrypt_compare loginData now1 now2 w =
       (Normal (LoginFail "User not found"), w)) /\
  (forall row : UserRow,
     lookup_email (login_email loginData) (db w) = Some row ->
     comparePassword bcrypt_compare (login_password loginData) (row_password row) = false ->
     login_user bcrypt_compare loginData now1 now2 w =
       (Normal (LoginFail "Invalid password"), w)).
Proof.
  split.
  - apply login_user_not_found.
  - intros row Hl Hcmp. apply (login_user_mismatch loginData now1 now2 w row Hl Hcmp).
Qed.

(** *** Duplicate emails *)

(** C4, as the code has it.  When the table holds a row with the email at
    the time the handler checks, [register-user] answers
    ['Email already registered'] and leaves the world as it was, whatever
    else is served meanwhile.  That answer comes from the check alone: when
    the row appears between the check and the INSERT, the UNIQUE constraint
    rejects the INSERT and the table stays as the other requests left it, but
    the answer is the [message] of the driver's error, produced by the
    handler's one [catch]. *)
Theorem register_duplicate_email (others : World -> World) (userData : UserData)
    (salt : string) (w : World) (row : UserRow) :
  (lookup_email (ud_email userData) (db w) = Some row ->
     register_user_await bcrypt_hash others userData salt w =
       (Normal (RegisterFail "Email already registered"), w) /\
     register_user bcrypt_hash userData salt w =
       (Normal (RegisterFail "Email already registered"), w)) /\
  (lookup_email (ud_email userData) (db w) = None ->
   lookup_email (ud_email userData) (db (others w)) = Some row ->
     register_user_await bcrypt_hash others userData salt w =
       (Normal (RegisterFail (message (SqliteError "UNIQUE constraint failed: user.email"))),
        others w)).
Proof.
  split.
  - intros Hl. split; [| unfold register_user];
      apply (register_user_await_registered _ userData salt w row Hl).
  - intros Hl Hl'.
    apply (register_user_await_overtaken others userData salt w row Hl Hl').
Qed.

(** *** Replies carry no secret *)

Lemma register_user_await_public (others1 others2 : World -> World)
    (name email : string) (password1 password2 salt1 salt2 : string)
    (w1 w2 : World) :
  public_db (db w1) = public_db (db w2) ->
  public_db (db (others1 w1)) = public_db (db (others2 w2)) ->
  result (register_user_await bcrypt_hash others1 (mkUserData name email password1) salt1 w1) =
  result (register_user_await bcrypt_hash others2 (mkUserData name email password2) salt2 w2).
Proof.
  intros Hpub Hpub'.
  pose proof (lookup_email_public email _ _ Hpub) as Hl.
  pose proof (lookup_email_public email _ _ Hpub') as Hl'.
  destruct (lookup_email email (db w1)) as [r1 |] eqn:H1;
    destruct (lookup_email email (db w2)) as [r2 |] eqn:H2; try discriminate.
  - rewrite (register_user_await_registered others1 (mkUserData name email password1) salt1 w1 r1 H1).
    rewrite (register_user_await_registered others2 (mkUserData name email password2) salt2 w2 r2 H2).
    reflexivity.
  - destruct (lookup_email email (db (others1 w1))) as [r1 |] eqn:H1';
      destruct (lookup_email email (db (others2 w2))) as [r2 |] eqn:H2'; try discriminate.
    + rewrite (register_user_await_overtaken others1 (mkUserData name email password1) salt1 w1 r1 H1 H1').
      rewrite (register_user_await_overtaken others2 (mkUserData name email password2) salt2 w2 r2 H2 H2').
      reflexivity.
    + rewrite (register_user_await_free others1 (mkUserData name email password1) salt1 w1 H1 H1').
      rewrite (register_user_await_free others2 (mkUserData name email password2) salt2 w2 H2 H2').
      unfold result; simpl. rewrite (next_rowid_public _ _ Hpub'). reflexivity.
Qed.

Lemma login_user_public (email password1 password2 : string)
    (a1 b1 a2 b2 : Z) (w1 w2 : World) (u1 u2 : User) :
  public_db (db w1) = public_db (db w2) ->
  result (login_user bcrypt_compare (mkLoginData email password1) a1 b1 w1) =
    Normal (LoginOk u1) ->
  result (login_user bcrypt_compare (mkLoginData email password2) a2 b2 w2) =
    Normal (LoginOk u2) ->
  u1 = u2.
Proof.
  intros Hpub.
  pose proof (lookup_email_public email _ _ Hpub) as Hl.
  destruct (lookup_email email (db w1)) as [r1 |] eqn:H1.
  - destruct (lookup_email email (db w2)) as [r2 |] eqn:H2; [| discriminate].
    simpl in Hl. unfold public_row in Hl. injection Hl as Hid Hname Hemail.
    destruct (bcrypt_compare password1 (row_password r1)) eqn:Hc1.
    + rewrite (login_user_match (mkLoginData email password1) a1 b1 w1 r1 H1 Hc1).
      destruct (bcrypt_compare password2 (row_password r2)) eqn:Hc2.
      * rewrite (login_user_match (mkLoginData email password2) a2 b2 w2 r2 H2 Hc2).
        unfold result; simpl. intros E1 E2.
        injection E1 as <-. injection E2 as <-. congruence.
      * rewrite (login_user_mismatch (mkLoginData email password2) a2 b2 w2 r2 H2 Hc2).
        discriminate.
    + rewrite (login_user_mismatch (mkLoginData email password1) a1 b1 w1 r1 H1 Hc1).
      discriminate.
  - rewrite (login_user_not_found (mkLoginData email password1) a1 b1 w1 H1).
    discriminate.
Qed.

(** C9. The reply of [register-user] is the same whatever the password and
    the salt, on tables that agree on every column but the password hash;
    it is the new id or one of two fixed messages.  A successful reply of
    [login-user] is the same whatever the password and the stored hashes; it
    is the user built from the id, name and email of the row and the default
    preferences, and a failed one carries one of two fixed messages. *)
Theorem replies_carry_no_secret :
  (forall (others1 others2 : World -> World) (name email : string)
          (password1 password2 salt1 salt2 : string) (w1 w2 : World),
     public_db (db w1) = public_db (db w2) ->
     public_db (db (others1 w1)) = public_db (db (others2 w2)) ->
     result (register_user_await bcrypt_hash others1
               (mkUserData name email password1) salt1 w1) =
     result (register_user_await bcrypt_hash others2
               (mkUserData name email password2) salt2 w2)) /\
  (forall (others : World -> World) (userData : UserData) (salt : string) (w : World),
     let reply := result (register_user_await bcrypt_hash others userData salt w) in
     reply = Normal (RegisterOk (next_rowid (db (others w)))) \/
     reply = Normal (RegisterFail "Email already registered") \/
     reply = Normal (RegisterFail "UNIQUE constraint failed: user.email")) /\
  (forall (email password1 password2 : string) (a1 b1 a2 b2 : Z)
          (w1 w2 : World) (u1 u2 : User),
     public_db (db w1) = public_db (db w2) ->
     result (login_user bcrypt_compare (mkLoginData email password1) a1 b1 w1) =
       Normal (LoginOk u1) ->
     result (login_user bcrypt_compare (mkLoginData email password2) a2 b2 w2) =
       Normal (LoginOk u2) ->
     u1 = u2) /\
  (forall (loginData : LoginData) (now1 now2 : Z) (w : World),
     let reply := result (login_user bcrypt_compare loginData now1 now2 w) in
     (exists row : UserRow,
        lookup_email (login_email loginData) (db w) = Some row /\
        reply = Normal (LoginOk (mkUser (row_id row) (row_name row) (row_email row)
                                   (Some default_preferences)))) \/
     reply = Normal (LoginFail "User not found") \/
     reply = Normal (LoginFail "Invalid password")).
Proof.
  split; [| split; [| split]].
  - intros. apply register_user_await_public; assumption.
  - intros others userData salt w reply. subst reply.
    destruct (lookup_email (ud_email userData) (db w)) as [r |] eqn:Hl.
    + right; left.
      rewrite (register_user_await_registered others userData salt w r Hl). reflexivity.
    + destruct (lookup_email (ud_email userData) (db (others w))) as [r |] eqn:Hl'.
      * right; right.
        rewrite (register_user_await_overtaken others userData salt w r Hl Hl').
        reflexivity.
      * left. rewrite (register_user_await_free others userData salt w Hl Hl').
        reflexivity.
  - apply login_user_public.
  - intros loginData now1 now2 w reply. subst reply.
    destruct (lookup_email (login_email loginData) (db w)) as [row |] eqn:Hl.
    + destruct (bcrypt_compare (login_password loginData) (row_password row)) eqn:Hcmp.
      * left. exists row. split; [reflexivity |].
        rewrite (login_user_match loginData now1 now2 w row Hl Hcmp). reflexivity.
      * right; right.
        rewrite (login_user_mismatch loginData now1 now2 w row Hl Hcmp). reflexivity.
    + right; left. rewrite (login_user_not_found loginData now1 now2 w Hl). reflexivity.
Qed.

(** *** The stored expiry *)

(** C10. When the two clock readings of [saveSession] agree, the record it
    writes has [expiresAt = timestamp + SESSION_TIMEOUT]; this holds for the
    record written at login, by [refreshSession] (also when
    [get-current-user] refreshes) and by [save-user-preferences]. *)
Theorem saved_record_expiry (now1 now2 : Z) :
  now1 = now2 ->
  (forall (u : User) (w : World),
     expiry_consistent (world (saveSession u now1 now2 w))) /\
  (forall (loginData : LoginData) (w : World) (u : User),
     result (login_user bcrypt_compare loginData now1 now2 w) = Normal (LoginOk u) ->
     expiry_consistent (world (login_user bcrypt_compare loginData now1 now2 w))) /\
  (forall (w : World) (u : User),
     currentUser w = Some u ->
     expiry_consistent (world (refreshSession now1 now2 w)) /\
     expiry_consistent (world (session_activity now1 now2 w))) /\
  (forall (w : World) (u : User) (currentTime : Z),
     result (get_current_user currentTime now1 now2 w) = Normal (Some u) ->
     expiry_consistent (world (get_current_user currentTime now1 now2 w))) /\
  (forall (patch : gmap string JsonValue) (w : World) (u : User),
     currentUser w = Some u ->
     expiry_consistent (world (save_user_preferences patch now1 now2 w))).
Proof.
  intros <-. split; [| split; [| split; [| split]]].
  - intros u w. exists (session_user u), now1. reflexivity.
  - intros loginData w u Hok.
    destruct (lookup_email (login_email loginData) (db w)) as [row |] eqn:Hl.
    + destruct (bcrypt_compare (login_password loginData) (row_password row)) eqn:Hcmp.
      * rewrite (login_user_match loginData now1 now1 w row Hl Hcmp).
        eexists _, now1. reflexivity.
      * rewrite (login_user_mismatch loginData now1 now1 w row Hl Hcmp) in Hok.
        discriminate.
    + rewrite (login_user_not_found loginData now1 now1 w Hl) in Hok. discriminate.
  - intros w u Hc. unfold session_activity. rewrite refreshSession_run, Hc.
    split; exists (session_user u), now1; reflexivity.
  - intros w u currentTime Hok.
    destruct (currentUser w) as [cu |] eqn:Hc.
    + destruct (loadSavedSession_total currentTime w) as (b & w' & Hl & _).
      rewrite (get_current_user_run currentTime now1 now1 w cu b w' Hc Hl) in Hok |- *.
      destruct b; [| discriminate].
      destruct (currentUser w') as [u' |]; [| discriminate].
      exists (session_user u'), now1. reflexivity.
    + rewrite (get_current_user_no_cache currentTime now1 now1 w Hc) in Hok.
      discriminate.
  - intros patch w u Hc.
    rewrite (save_user_preferences_run patch now1 now1 w u Hc).
    eexists _, now1. reflexivity.
Qed.

End AuthProperties.

(** ** The statements at work on the concrete run *)

Lemma alice_session_established : session_established 1000 alice_user alice_logged_in.
Proof.
  split.
  - exists alice_user. split; vm_compute; reflexivity.
  - exists (Some (1000 + SESSION_TIMEOUT)). vm_compute. reflexivity.
Defined.

Lemma register_then_login_witness :
  exists userId : Z,
    result (register_user demo_hash alice "salt" fresh_world) = Normal (RegisterOk userId) /\
    forall w' : World,
      db w' = db (world (register_user demo_hash alice "salt" fresh_world)) ->
      exists u : User,
        result (login_user demo_compare (mkLoginData (ud_email alice) (ud_password alice))
                  1000 1000 w') = Normal (LoginOk u) /\
        user_email u = ud_email alice /\
        user_name u = ud_name alice /\
        user_id u = userId.
Proof.
  apply (register_then_login demo_hash demo_compare alice "salt" 1000 1000 fresh_world).
  - intros data saltRounds s. apply demo_compare_hash.
  - vm_compute. reflexivity.
Defined.

Lemma current_user_until_expiry_witness :
  result (get_current_user 2000 2001 2001 alice_logged_in) = Normal (Some alice_user) /\
  result (get_current_user (1000 + SESSION_TIMEOUT) 2001 2001 alice_logged_in) = Normal None.
Proof.
  split.
  - apply (current_user_until_expiry 1000 alice_user alice_logged_in 2000 2001 2001).
    + exact alice_session_established.
    + lia.
    + vm_compute. reflexivity.
  - apply (current_user_until_expiry 1000 alice_user alice_logged_in
             (1000 + SESSION_TIMEOUT) 2001 2001).
    + exact alice_session_established.
    + lia.
    + lia.
Defined.

Lemma corrupt_session_like_absent_witness :
  world (get_current_user 5 6 6
           (mkWorld (Some alice_user) (Some (Unparseable "{oops")) (mkDatabase [] 0))) =
    mkWorld None None (mkDatabase [] 0).
Proof.
  apply (corrupt_session_like_absent (Unparseable "{oops")
           (mkWorld (Some alice_user) (Some (Unparseable "{oops")) (mkDatabase [] 0))
           5 6 6).
  - reflexivity.
  - reflexivity.
  - reflexivity.
  - exists alice_user. reflexivity.
Defined.

Lemma register_duplicate_email_witness :
  register_user demo_hash (mkUserData "Mallory" "a@x.com" "hunter2") "pepper" alice_registered =
    (Normal (RegisterFail "Email already registered"), alice_registered).
Proof.
  apply (register_duplicate_email demo_hash (fun w => w)
           (mkUserData "Mallory" "a@x.com" "hunter2") "pepper" alice_registered
           (mkUserRow 1 "Alice" "a@x.com" "pw123$salt")).
  vm_compute. reflexivity.
Defined.

(** The claim of C4 as first stated fails when two registrations of one
    email overlap: the second is served while the first awaits its hash.
    When the first reaches its INSERT the table holds the email, the UNIQUE
    constraint rejects the row, and the reply is the driver's message, not
    ['Email already registered']. *)
Lemma register_constraint_reply_not_distinct :
  let second := mkUserData "Mallory" "a@x.com" "hunter2" in
  let others := fun w => world (register_user demo_hash second "pepper" w) in
  let reply := result (register_user_await demo_hash others alice "salt" fresh_world) in
  lookup_email "a@x.com" (db (others fresh_world)) =
    Some (mkUserRow 1 "Mallory" "a@x.com" "hunter2$pepper") /\
  reply = Normal (RegisterFail "UNIQUE constraint failed: user.email") /\
  reply <> Normal (RegisterFail "Email already registered") /\
  db (world (register_user_await demo_hash others alice "salt" fresh_world)) =
    db (others fresh_world).
Proof.
  vm_compute. repeat split. discriminate.
Qed.

Lemma login_failure_keeps_session_witness :
  login_user demo_compare (mkLoginData "b@x.com" "pw123") 7 7 alice_logged_in =
    (Normal (LoginFail "User not found"), alice_logged_in) /\
  login_user demo_compare (mkLoginData "a@x.com" "wrong") 7 7 alice_logged_in =
    (Normal (LoginFail "Invalid password"), alice_logged_in).
Proof.
  split.
  - apply (login_failure_keeps_session demo_compare (mkLoginData "b@x.com" "pw123")
             7 7 alice_logged_in).
    vm_compute. reflexivity.
  - apply (proj2 (login_failure_keeps_session demo_compare (mkLoginData "a@x.com" "wrong")
                    7 7 alice_logged_in)
             (mkUserRow 1 "Alice" "a@x.com" "pw123$salt")).
    + vm_compute. reflexivity.
    + vm_compute. reflexivity.
Defined.

Lemma refresh_slides_expiry_witness :
  result (get_current_user (5000 + SESSION_TIMEOUT - 1) 0 0
            (world (refreshSession 5000 5000 alice_logged_in))) =
    Normal (Some alice_user) /\
  result (validate_session (5000 + SESSION_TIMEOUT - 1) alice_logged_in) = Normal false.
Proof.
  destruct (proj1 refresh_slides_expiry 1000 alice_user alice_logged_in 5000 5000)
    as (_ & _ & Hvalid & Hold).
  - exact alice_session_established.
  - vm_compute. reflexivity.
  - lia.
  - split.
    + apply Hvalid. lia.
    + apply Hold. vm_compute. discriminate.
Defined.

Lemma save_user_preferences_merges_witness :
  exists merged : gmap string JsonValue,
    merged !! "darkMode" = Some (JBool true) /\
    merged !! "lastUsedAI" = Some (JString "claude") /\
    currentUser (world (save_user_preferences {[ "darkMode" := JBool true ]} 9 9
                          alice_logged_in)) =
      Some (mkUser 1 "Alice" "a@x.com" (Some merged)).
Proof.
  destruct (proj2 (save_user_preferences_merges {[ "darkMode" := JBool true ]} 9 9
                     alice_logged_in) alice_user)
    as (merged & Hpatch & Hold & _ & Hcache & _).
  - vm_compute. reflexivity.
  - exists merged. split; [| split].
    + apply Hpatch. vm_compute. reflexivity.
    + rewrite Hold; vm_compute; reflexivity.
    + exact Hcache.
Defined.

Lemma replies_carry_no_secret_witness :
  result (register_user_await demo_hash (fun w => w)
            (mkUserData "Bob" "b@x.com" "first") "s1" alice_registered) =
  result (register_user_await demo_hash (fun w => w)
            (mkUserData "Bob" "b@x.com" "second") "s2" alice_registered).
Proof.
  apply (proj1 (replies_carry_no_secret demo_hash demo_compare)).
  - reflexivity.
  - reflexivity.
Defined.

Lemma saved_record_expiry_witness :
  expiry_consistent (world (saveSession alice_user 1000 1000 fresh_world)).
Proof.
  apply (saved_record_expiry demo_compare 1000 1000).
  reflexivity.
Defined.

(** * Further properties of the main process *)

(** ** Sessions across a restart *)

(** X1. What [saveSession] wrote is what a new process restores: started
    less than [SESSION_TIMEOUT] after the stored timestamp it restores the
    saved user into the cache and keeps the file; started later it restores
    nothing and deletes the file. *)
Theorem session_survives_restart (u : User) (now1 now2 : Z) (w : World) (T' : Z) :
  now1 <> 0 ->
  let w' := restart (world (saveSession u now1 now2 w)) in
  (T' - now1 < SESSION_TIMEOUT ->
     result (loadSavedSession T' w') = Normal true /\
     currentUser (world (loadSavedSession T' w')) = Some (session_user u) /\
     userSessionFile (world (loadSavedSession T' w')) = userSessionFile w') /\
  (SESSION_TIMEOUT <= T' - now1 ->
     result (loadSavedSession T' w') = Normal false /\
     currentUser (world (loadSavedSession T' w')) = None /\
     userSessionFile (world (loadSavedSession T' w')) = None).
Proof.
  intros Hnow w'.
  assert (Hf : userSessionFile w' =
               Some (JsonText (Some (mkSessionData (Some (session_user u)) (Some now1)
                                        (Some (now2 + SESSION_TIMEOUT))))))
    by reflexivity.
  pose proof (session_fields_record (session_user u) now1
                (Some (now2 + SESSION_TIMEOUT)) Hnow) as Hv.
  split; intros Hage.
  - rewrite (loadSavedSession_fresh T' w' _ _ _ Hf Hv Hage). repeat split.
  - rewrite (loadSavedSession_expired T' w' _ _ _ Hf Hv Hage). repeat split.
Qed.

Lemma session_survives_restart_witness :
  result (loadSavedSession 2000 (restart alice_logged_in)) = Normal true /\
  currentUser (world (loadSavedSession 2000 (restart alice_logged_in))) = Some alice_user.
Proof.
  destruct (proj1 (session_survives_restart alice_user 1000 1000 alice_registered 2000
                     ltac:(lia)))
    as (Hr & Hc & _).
  - vm_compute. reflexivity.
  - split; [exact Hr | exact Hc].
Defined.

(** ** Activity signals and expiry *)

(** X3. [refreshSession] does not look at the age of the session.  A session
    established at [T] that [validate-session] would reject and delete at
    [T2] is, when a [session-activity] signal arrives at [T2] instead,
    stamped [T2] and accepted again. *)
Theorem activity_revives_expired_session (T : Z) (u : User) (w : World) (T2 now2 : Z) :
  session_established T u w ->
  T <> 0 -> T2 <> 0 ->
  SESSION_TIMEOUT <= T2 - T ->
  world (validate_session T2 w) = mkWorld None None (db w) /\
  result (validate_session T2 w) = Normal false /\
  let w2 := world (session_activity T2 now2 w) in
  result (validate_session T2 w2) = Normal true /\
  forall T' a b : Z,
    T' - T2 < SESSION_TIMEOUT ->
    result (get_current_user T' a b w2) = Normal (Some u).
Proof.
  intros Hest HT HT2 Hexp. unfold validate_session, session_activity.
  rewrite (established_load_expired T u w T2 Hest HT Hexp).
  split; [reflexivity |]. split; [reflexivity |].
  pose proof (refresh_established T u w T2 now2 Hest) as Hest2.
  simpl. split.
  - rewrite (established_load_fresh T2 u _ T2 Hest2 HT2); [reflexivity |].
    unfold SESSION_TIMEOUT. lia.
  - intros T' a b HT'.
    rewrite (established_current_user_fresh T2 u _ T' a b Hest2 HT2 HT'). reflexivity.
Qed.

Lemma activity_revives_expired_session_witness :
  result (validate_session (1000 + SESSION_TIMEOUT) alice_logged_in) = Normal false /\
  result (validate_session (1000 + SESSION_TIMEOUT)
            (world (session_activity (1000 + SESSION_TIMEOUT) 0 alice_logged_in))) =
    Normal true.
Proof.
  destruct (activity_revives_expired_session 1000 alice_user alice_logged_in
              (1000 + SESSION_TIMEOUT) 0)
    as (_ & Hold & Hnew & _).
  - exact alice_session_established.
  - lia.
  - vm_compute. discriminate.
  - lia.
  - split; [exact Hold | exact Hnew].
Defined.

(** X17. A cached user whose session file has gone missing: [get-current-user]
    answers [null] but leaves the cache as it is, the next [session-activity]
    writes the file anew from the cache, and [get-current-user] then answers
    the user again. *)
Theorem missing_file_keeps_cache (cu : User) (w : World) :
  currentUser w = Some cu ->
  userSessionFile w = None ->
  forall currentTime now1 now2 : Z,
    get_current_user currentTime now1 now2 w = (Normal None, w) /\
    forall T a T' b c : Z,
      T <> 0 -> T' - T < SESSION_TIMEOUT ->
      result (get_current_user T' b c (world (session_activity T a w))) =
        Normal (Some (session_user cu)).
Proof.
  intros Hc Hf currentTime now1 now2. split.
  - rewrite (get_current_user_run currentTime now1 now2 w cu false w Hc
               (loadSavedSession_no_file currentTime w Hf)).
    reflexivity.
  - intros T a T' b c HT Hage.
    assert (Hest : session_established T (session_user cu)
                     (world (session_activity T a w))).
    { unfold session_activity. rewrite refreshSession_run, Hc, saveSession_run.
      unfold world; simpl. split.
      - exists cu. split; [exact Hc | reflexivity].
      - eexists. reflexivity. }
    rewrite (established_current_user_fresh T (session_user cu) _ T' b c Hest HT Hage).
    reflexivity.
Qed.

Lemma missing_file_keeps_cache_witness :
  get_current_user 5 6 6 (mkWorld (Some alice_user) None (mkDatabase [] 0)) =
    (Normal None, mkWorld (Some alice_user) None (mkDatabase [] 0)).
Proof.
  apply (missing_file_keeps_cache alice_user
           (mkWorld (Some alice_user) None (mkDatabase [] 0)) eq_refl eq_refl 5 6 6).
Defined.

(** ** Preferences over time *)

(** X10. Preferences saved through [save-user-preferences] are in the
    session file: a new process started within [SESSION_TIMEOUT] of the
    update restores the user with the merged preferences. *)
Theorem preferences_survive_restart (patch : gmap string JsonValue)
    (now1 now2 : Z) (w : World) (u : User) (T' : Z) :
  currentUser w = Some u ->
  now1 <> 0 ->
  T' - now1 < SESSION_TIMEOUT ->
  let w' := restart (world (save_user_preferences patch now1 now2 w)) in
  result (loadSavedSession T' w') = Normal true /\
  currentUser (world (loadSavedSession T' w')) =
    Some (mkUser (user_id u) (user_name u) (user_email u)
            (Some (patch ∪ default ∅ (user_preferences u)))).
Proof.
  intros Hc Hnow Hage w'. subst w'.
  rewrite (save_user_preferences_run patch now1 now2 w u Hc).
  unfold world, result, restart; simpl.
  erewrite loadSavedSession_fresh;
    [split; reflexivity | reflexivity | apply session_fields_record; exact Hnow | exact Hage].
Qed.

Lemma preferences_survive_restart_witness :
  exists prefs : gmap string JsonValue,
    user_preferences <$>
      currentUser (world (loadSavedSession 50
        (restart (world (save_user_preferences {[ "darkMode" := JBool true ]} 9 9
                           alice_logged_in))))) = Some (Some prefs) /\
    prefs !! "darkMode" = Some (JBool true).
Proof.
  destruct (preferences_survive_restart {[ "darkMode" := JBool true ]} 9 9
              alice_logged_in alice_user 50) as [_ Hc].
  - vm_compute. reflexivity.
  - lia.
  - vm_compute. reflexivity.
  - rewrite Hc. eexists. split; [reflexivity |]. vm_compute. reflexivity.
Defined.

(** X11. Two preference updates in a row leave the cache and the session
    file as a single update with the merged patch does, the keys of the
    later patch winning; in particular sending a patch twice is the same as
    sending it once. *)
Theorem preference_updates_compose (patch1 patch2 : gmap string JsonValue)
    (now1 now2 now3 now4 : Z) (w : World) (u : User) :
  currentUser w = Some u ->
  world (save_user_preferences patch2 now3 now4
           (world (save_user_preferences patch1 now1 now2 w))) =
    world (save_user_preferences (patch2 ∪ patch1) now3 now4 w) /\
  world (save_user_preferences patch1 now3 now4
           (world (save_user_preferences patch1 now1 now2 w))) =
    world (save_user_preferences patch1 now3 now4 w).
Proof.
  intros Hc.
  assert (Hgen : forall p1 p2,
            world (save_user_preferences p2 now3 now4
                     (world (save_user_preferences p1 now1 now2 w))) =
            world (save_user_preferences (p2 ∪ p1) now3 now4 w)).
  { intros p1 p2.
    rewrite (save_user_preferences_run p1 now1 now2 w u Hc).
    rewrite (save_user_preferences_run (p2 ∪ p1) now3 now4 w u Hc).
    unfold world; cbn [snd].
    erewrite save_user_preferences_run by reflexivity.
    cbn. rewrite (assoc_L (∪)). reflexivity. }
  split.
  - apply Hgen.
  - rewrite Hgen. rewrite (idemp_L (∪) patch1). reflexivity.
Qed.

Lemma preference_updates_compose_witness :
  world (save_user_preferences {[ "darkMode" := JBool false ]} 8 8
           (world (save_user_preferences {[ "darkMode" := JBool true ]} 7 7
                     alice_logged_in))) =
  world (save_user_preferences
           ({[ "darkMode" := JBool false ]} ∪ {[ "darkMode" := JBool true ]}) 8 8
           alice_logged_in).
Proof.
  apply (preference_updates_compose {[ "darkMode" := JBool true ]}
           {[ "darkMode" := JBool false ]} 7 7 8 8 alice_logged_in alice_user).
  vm_compute. reflexivity.
Defined.

(** ** The table under registration *)

Lemma max_rowid_ge (l : list UserRow) (r : UserRow) :
  In r l -> row_id r <= foldr (fun r acc => Z.max (row_id r) acc) 0 l.
Proof.
  induction l as [| r' l IH]; simpl; [contradiction |].
  intros [-> | Hin]; [lia | specialize (IH Hin); lia].
Qed.

Lemma rowid_below_next (d : Database) (r : UserRow) :
  In r (rows d) -> row_id r < next_rowid d.
Proof.
  intros Hin. unfold next_rowid. pose proof (max_rowid_ge _ _ Hin). lia.
Qed.

Lemma lookup_email_None (email : string) (d : Database) :
  lookup_email email d = None -> ~ In email (map row_email (rows d)).
Proof.
  unfold lookup_email. intros Hnone Hin.
  apply in_map_iff in Hin as (r & Hemail & Hin).
  pose proof (find_none _ _ Hnone r Hin) as Hneq. simpl in Hneq.
  rewrite Hemail, String.eqb_refl in Hneq. discriminate.
Qed.

Lemma lookup_id_inserted (d : Database) (name email password : string) (s : Z) :
  lookup_id (next_rowid d)
    (mkDatabase (rows d ++ [mkUserRow (next_rowid d) name email password]) s) =
    Some (mkUserRow (next_rowid d) name email password).
Proof.
  unfold lookup_id. simpl.
  pose proof (rowid_below_next d) as Hbelow.
  generalize dependent (next_rowid d). intros fresh Hbelow.
  induction (rows d) as [| r l IH]; simpl.
  - rewrite Z.eqb_refl. reflexivity.
  - destruct (Z.eqb_spec (row_id r) fresh) as [Heq | _].
    + specialize (Hbelow r (or_introl eq_refl)). lia.
    + apply IH. intros r' Hin. apply Hbelow. right. exact Hin.
Qed.

Lemma getUserById_run (id : Z) (w : World) :
  getUserById id w = (Normal (lookup_id id (db w)), w).
Proof. reflexivity. Qed.

(** The session handlers leave the table alone. *)
Lemma get_current_user_db (currentTime now1 now2 : Z) (w : World) :
  db (world (get_current_user currentTime now1 now2 w)) = db w.
Proof.
  destruct (currentUser w) as [cu |] eqn:Hc.
  - destruct (loadSavedSession_total currentTime w) as (b & w' & Hl & Hdb).
    rewrite (get_current_user_run currentTime now1 now2 w cu b w' Hc Hl).
    destruct b; [| exact Hdb].
    destruct (currentUser w'); exact Hdb.
  - rewrite (get_current_user_no_cache currentTime now1 now2 w Hc). reflexivity.
Qed.

Lemma loadSavedSession_db (currentTime : Z) (w : World) :
  db (world (loadSavedSession currentTime w)) = db w.
Proof.
  destruct (loadSavedSession_total currentTime w) as (b & w' & Hl & Hdb).
  rewrite Hl. exact Hdb.
Qed.

Lemma refreshSession_db (now1 now2 : Z) (w : World) :
  db (world (refreshSession now1 now2 w)) = db w.
Proof. rewrite refreshSession_run. destruct (currentUser w); reflexivity. Qed.

Lemma save_user_preferences_no_user (patch : gmap string JsonValue) (now1 now2 : Z)
    (w : World) :
  currentUser w = None ->
  save_user_preferences patch now1 now2 w = (Normal tt, w).
Proof.
  intros Hc. unfold save_user_preferences. js_unfold. js_run Hc. reflexivity.
Qed.

Lemma save_user_preferences_db (patch : gmap string JsonValue) (now1 now2 : Z) (w : World) :
  db (world (save_user_preferences patch now1 now2 w)) = db w.
Proof.
  destruct (currentUser w) as [u |] eqn:Hc.
  - rewrite (save_user_preferences_run patch now1 now2 w u Hc). reflexivity.
  - rewrite (save_user_preferences_no_user patch now1 now2 w Hc). reflexivity.
Qed.

Section StoreProperties.

Variable bcrypt_hash : string -> Z -> string -> string.
Variable bcrypt_compare : string -> string -> bool.

(** What a registration served on its own does to the world: nothing, or one
    row appended to the table. *)
Lemma register_user_world (userData : UserData) (salt : string) (w : World) :
  (exists row, lookup_email (ud_email userData) (db w) = Some row /\
     register_user bcrypt_hash userData salt w =
       (Normal (RegisterFail "Email already registered"), w)) \/
  (lookup_email (ud_email userData) (db w) = None /\
   register_user bcrypt_hash userData salt w =
     (Normal (RegisterOk (next_rowid (db w))),
      mkWorld (currentUser w) (userSessionFile w)
        (mkDatabase
           (rows (db w) ++
              [mkUserRow (next_rowid (db w)) (ud_name userData) (ud_email userData)
                 (hashPassword bcrypt_hash (ud_password userData) salt)])
           (next_rowid (db w))))).
Proof.
  unfold register_user.
  destruct (lookup_email (ud_email userData) (db w)) as [row |] eqn:Hl.
  - left. exists row. split; [reflexivity |].
    apply (register_user_await_registered bcrypt_hash _ userData salt w row Hl).
  - right. split; [reflexivity |].
    apply (register_user_await_free bcrypt_hash (fun w => w) userData salt w Hl Hl).
Qed.

Lemma login_user_db (loginData : LoginData) (now1 now2 : Z) (w : World) :
  db (world (login_user bcrypt_compare loginData now1 now2 w)) = db w.
Proof.
  destruct (lookup_email (login_email loginData) (db w)) as [row |] eqn:Hl.
  - destruct (bcrypt_compare (login_password loginData) (row_password row)) eqn:Hcmp.
    + rewrite (login_user_match bcrypt_compare loginData now1 now2 w row Hl Hcmp).
      reflexivity.
    + rewrite (login_user_mismatch bcrypt_compare loginData now1 now2 w row Hl Hcmp).
      reflexivity.
  - rewrite (login_user_not_found bcrypt_compare loginData now1 now2 w Hl). reflexivity.
Qed.

(** The reply of [login-user] is decided by the table alone. *)
Lemma login_user_result_db (loginData : LoginData) (now1 now2 now1' now2' : Z)
    (w w' : World) :
  lookup_email (login_email loginData) (db w') = lookup_email (login_email loginData) (db w) ->
  result (login_user bcrypt_compare loginData now1' now2' w') =
  result (login_user bcrypt_compare loginData now1 now2 w).
Proof.
  intros Hsame.
  destruct (lookup_email (login_email loginData) (db w)) as [row |] eqn:Hl.
  - destruct (bcrypt_compare (login_password loginData) (row_password row)) eqn:Hcmp.
    + rewrite (login_user_match bcrypt_compare loginData now1 now2 w row Hl Hcmp).
      rewrite (login_user_match bcrypt_compare loginData now1' now2' w' row Hsame Hcmp).
      reflexivity.
    + rewrite (login_user_mismatch bcrypt_compare loginData now1 now2 w row Hl Hcmp).
      rewrite (login_user_mismatch bcrypt_compare loginData now1' now2' w' row Hsame Hcmp).
      reflexivity.
  - rewrite (login_user_not_found bcrypt_compare loginData now1 now2 w Hl).
    rewrite (login_user_not_found bcrypt_compare loginData now1' now2' w' Hsame).
    reflexivity.
Qed.

(** X7. After a successful registration the id it returned and the email it
    was given both lead to the row just inserted, which carries the name, the
    email and the hash of the password. *)
Theorem registered_row_found (userData : UserData) (salt : string) (w : World) :
  lookup_email (ud_email userData) (db w) = None ->
  let w' := world (register_user bcrypt_hash userData salt w) in
  exists userId : Z,
    result (register_user bcrypt_hash userData salt w) = Normal (RegisterOk userId) /\
    let row := mkUserRow userId (ud_name userData) (ud_email userData)
                 (hashPassword bcrypt_hash (ud_password userData) salt) in
    getUserById userId w' = (Normal (Some row), w') /\
    getUserByEmail (ud_email userData) w' = (Normal (Some row), w') /\
    (forall r : UserRow, In r (rows (db w)) -> row_id r < userId).
Proof.
  intros Hfree w'. subst w'.
  destruct (register_user_world userData salt w) as [(row & Hl & _) | [_ Hrun]];
    [congruence |].
  rewrite Hrun. unfold result, world; simpl.
  exists (next_rowid (db w)). split; [reflexivity |]. split; [| split].
  - rewrite getUserById_run. simpl. rewrite lookup_id_inserted. reflexivity.
  - rewrite getUserByEmail_run. simpl.
    rewrite (lookup_email_inserted (db w) _ _ _ _ _ Hfree). reflexivity.
  - apply rowid_below_next.
Qed.

(** X8. Registration does not disturb the accounts that exist: for an email
    the table already holds, [login-user] gives the same reply after any
    registration as before it. *)
Theorem registration_keeps_logins (loginData : LoginData) (now1 now2 : Z)
    (userData : UserData) (salt : string) (w : World) (row : UserRow) :
  lookup_email (login_email loginData) (db w) = Some row ->
  result (login_user bcrypt_compare loginData now1 now2
            (world (register_user bcrypt_hash userData salt w))) =
  result (login_user bcrypt_compare loginData now1 now2 w).
Proof.
  intros Hl. apply login_user_result_db.
  destruct (register_user_world userData salt w) as [(row' & _ & Hrun) | [_ Hrun]];
    rewrite Hrun; unfold world; simpl.
  - reflexivity.
  - rewrite Hl. apply lookup_email_kept. exact Hl.
Qed.

(** X9. Preferences live in the session only.  After a preference update
    and a logout, a successful login returns and caches the user with the
    default preferences: the update is gone. *)
Theorem login_forgets_preferences (patch : gmap string JsonValue)
    (now1 now2 now3 now4 : Z) (loginData : LoginData) (w : World) (row : UserRow) :
  lookup_email (login_email loginData) (db w) = Some row ->
  bcrypt_compare (login_password loginData) (row_password row) = true ->
  let w' := world (logout (world (save_user_preferences patch now1 now2 w))) in
  let fresh := mkUser (row_id row) (row_name row) (row_email row)
                 (Some default_preferences) in
  db w' = db w /\
  result (login_user bcrypt_compare loginData now3 now4 w') = Normal (LoginOk fresh) /\
  currentUser (world (login_user bcrypt_compare loginData now3 now4 w')) = Some fresh.
Proof.
  intros Hl Hcmp w' fresh.
  assert (Hdb : db w' = db w).
  { subst w'. unfold logout. rewrite clearSession_run. unfold world at 1; simpl.
    apply save_user_preferences_db. }
  split; [exact Hdb |].
  rewrite <- Hdb in Hl.
  rewrite (login_user_match bcrypt_compare loginData now3 now4 w' row Hl Hcmp).
  split; reflexivity.
Qed.

End StoreProperties.

Lemma registered_row_found_witness :
  getUserById 1 alice_registered =
    (Normal (Some (mkUserRow 1 "Alice" "a@x.com" "pw123$salt")), alice_registered).
Proof.
  destruct (registered_row_found demo_hash alice "salt" fresh_world)
    as (userId & Hreply & Hid & _).
  - vm_compute. reflexivity.
  - vm_compute in Hreply. injection Hreply as <-. exact Hid.
Defined.

Lemma registration_keeps_logins_witness :
  result (login_user demo_compare alice_login 5 5
            (world (register_user demo_hash (mkUserData "Bob" "b@x.com" "secret") "s"
                      alice_registered))) =
  result (login_user demo_compare alice_login 5 5 alice_registered).
Proof.
  apply (registration_keeps_logins demo_hash demo_compare alice_login 5 5
           (mkUserData "Bob" "b@x.com" "secret") "s" alice_registered
           (mkUserRow 1 "Alice" "a@x.com" "pw123$salt")).
  vm_compute. reflexivity.
Defined.

Lemma login_forgets_preferences_witness :
  currentUser
    (world (login_user demo_compare alice_login 30 30
              (world (logout (world (save_user_preferences
                                       {[ "darkMode" := JBool true ]} 20 20
                                       alice_logged_in)))))) =
    Some alice_user.
Proof.
  apply (login_forgets_preferences demo_compare {[ "darkMode" := JBool true ]}
           20 20 30 30 alice_login alice_logged_in
           (mkUserRow 1 "Alice" "a@x.com" "pw123$salt")).
  - vm_compute. reflexivity.
  - vm_compute. reflexivity.
Defined.

(** ** The cache and the session file stay in step *)

Lemma session_coherent_cleared (d : Database) : session_coherent (mkWorld None None d).
Proof. split; intros ? H; discriminate H. Qed.

Lemma session_coherent_ext (w w' : World) :
  currentUser w' = currentUser w ->
  userSessionFile w' = userSessionFile w ->
  session_coherent w -> session_coherent w'.
Proof. unfold session_coherent. intros -> ->. exact (fun H => H). Qed.

Lemma session_coherent_saved (u : User) (now1 now2 : Z) (w : World) :
  currentUser w = Some u ->
  session_coherent (world (saveSession u now1 now2 w)).
Proof.
  intros Hc. rewrite saveSession_run. unfold world; simpl. split; simpl.
  - intros cu Hcu. rewrite Hc in Hcu. injection Hcu as <-. eexists _, _. reflexivity.
  - intros content Hf. injection Hf as <-. eexists _, _, _. reflexivity.
Qed.

Lemma session_coherent_loaded (currentTime : Z) (w : World) :
  session_coherent w ->
  session_coherent (world (loadSavedSession currentTime w)).
Proof.
  intros Hcoh. destruct (userSessionFile w) as [content |] eqn:Hf.
  - destruct (proj2 Hcoh content Hf) as (u & T & e & ->).
    destruct (session_fields (Some (mkSessionData (Some (session_user u)) (Some T) e)))
      as [[u' ts] |] eqn:Hv.
    + assert (u' = session_user u) as ->.
      { unfold session_fields in Hv. simpl in Hv.
        destruct (truthy_number T); [| discriminate]. congruence. }
      destruct (Z_lt_le_dec (currentTime - ts) SESSION_TIMEOUT) as [Hlt | Hge].
      * rewrite (loadSavedSession_fresh currentTime w _ _ ts Hf Hv Hlt).
        unfold world; simpl. rewrite Hf. split; simpl.
        -- intros cu Hcu. injection Hcu as <-. eexists _, _. reflexivity.
        -- intros content Hc. injection Hc as <-. eexists _, _, _. reflexivity.
      * rewrite (loadSavedSession_expired currentTime w _ _ ts Hf Hv Hge).
        apply session_coherent_cleared.
    + rewrite (loadSavedSession_invalid currentTime w _ Hf Hv). exact Hcoh.
  - rewrite (loadSavedSession_no_file currentTime w Hf). exact Hcoh.
Qed.

Lemma session_coherent_refreshed (now1 now2 : Z) (w : World) :
  session_coherent w -> session_coherent (world (refreshSession now1 now2 w)).
Proof.
  intros Hcoh. rewrite refreshSession_run.
  destruct (currentUser w) as [u |] eqn:Hc.
  - apply session_coherent_saved. exact Hc.
  - exact Hcoh.
Qed.

Lemma session_coherent_current_user (currentTime now1 now2 : Z) (w : World) :
  session_coherent w ->
  session_coherent (world (get_current_user currentTime now1 now2 w)).
Proof.
  intros Hcoh. destruct (currentUser w) as [cu |] eqn:Hc.
  - destruct (loadSavedSession_total currentTime w) as (b & w' & Hl & _).
    pose proof (session_coherent_loaded currentTime w Hcoh) as Hcoh'.
    rewrite Hl in Hcoh'. unfold world in Hcoh'; simpl in Hcoh'.
    rewrite (get_current_user_run currentTime now1 now2 w cu b w' Hc Hl).
    destruct b; [| exact Hcoh'].
    destruct (currentUser w') as [u |] eqn:Hc'; [| exact Hcoh'].
    apply (session_coherent_saved u now1 now2 w' Hc').
  - rewrite (get_current_user_no_cache currentTime now1 now2 w Hc). exact Hcoh.
Qed.

Lemma session_coherent_preferences (patch : gmap string JsonValue) (now1 now2 : Z)
    (w : World) :
  session_coherent w ->
  session_coherent (world (save_user_preferences patch now1 now2 w)).
Proof.
  intros Hcoh. destruct (currentUser w) as [u |] eqn:Hc.
  - rewrite (save_user_preferences_run patch now1 now2 w u Hc).
    unfold world; simpl. split; simpl.
    + intros cu Hcu. injection Hcu as <-. eexists _, _. reflexivity.
    + intros content Hf. injection Hf as <-.
      exists (mkUser (user_id u) (user_name u) (user_email u)
                (Some (patch ∪ default ∅ (user_preferences u)))).
      eexists _, _. reflexivity.
  - rewrite (save_user_preferences_no_user patch now1 now2 w Hc). exact Hcoh.
Qed.

(** ** Rows are only ever added *)

Lemma unique_rows_inserted (d : Database) (name email password : string) :
  lookup_email email d = None ->
  unique_rows d ->
  unique_rows (mkDatabase (rows d ++ [mkUserRow (next_rowid d) name email password])
                 (next_rowid d)).
Proof.
  intros Hfree [Hemails Hids]. unfold unique_rows. simpl.
  rewrite !map_app. simpl. split.
  - apply NoDup_app. split; [exact Hemails |]. split.
    + intros x Hx Hin. apply list_elem_of_singleton in Hin as ->.
      apply list_elem_of_In in Hx. exact (lookup_email_None email d Hfree Hx).
    + apply NoDup_singleton.
  - apply NoDup_app. split; [exact Hids |]. split.
    + intros x Hx Hin. apply list_elem_of_singleton in Hin as ->.
      apply list_elem_of_In, in_map_iff in Hx as (r & Hid & Hr).
      pose proof (rowid_below_next d r Hr). lia.
    + apply NoDup_singleton.
Qed.

Section DispatchProperties.

Variable bcrypt_hash : string -> Z -> string -> string.
Variable bcrypt_compare : string -> string -> bool.

Lemma serve_all_cons (request : Request) (requests : list Request) (a : App) :
  serve_all bcrypt_hash bcrypt_compare (request :: requests) a =
  serve_all bcrypt_hash bcrypt_compare requests
    (serve bcrypt_hash bcrypt_compare request a).
Proof. reflexivity. Qed.

Lemma session_coherent_login (loginData : LoginData) (now1 now2 : Z) (w : World) :
  session_coherent w ->
  session_coherent (world (login_user bcrypt_compare loginData now1 now2 w)).
Proof.
  intros Hcoh.
  destruct (lookup_email (login_email loginData) (db w)) as [row |] eqn:Hl.
  - destruct (bcrypt_compare (login_password loginData) (row_password row)) eqn:Hcmp.
    + rewrite (login_user_match bcrypt_compare loginData now1 now2 w row Hl Hcmp).
      unfold world; simpl. split; simpl.
      * intros cu Hcu. injection Hcu as <-. eexists _, _. reflexivity.
      * intros content Hf. injection Hf as <-.
        exists (mkUser (row_id row) (row_name row) (row_email row)
                  (Some default_preferences)).
        eexists _, _. reflexivity.
    + rewrite (login_user_mismatch bcrypt_compare loginData now1 now2 w row Hl Hcmp).
      exact Hcoh.
  - rewrite (login_user_not_found bcrypt_compare loginData now1 now2 w Hl). exact Hcoh.
Qed.

Lemma session_coherent_register (userData : UserData) (salt : string) (w : World) :
  session_coherent w ->
  session_coherent (world (register_user bcrypt_hash userData salt w)).
Proof.
  intros Hcoh.
  destruct (register_user_world bcrypt_hash userData salt w)
    as [(row & _ & Hrun) | [_ Hrun]]; rewrite Hrun; unfold world; simpl.
  - exact Hcoh.
  - apply (session_coherent_ext w); [reflexivity | reflexivity | exact Hcoh].
Qed.

Lemma session_coherent_serve (request : Request) (a : App) :
  session_coherent (app_world a) ->
  session_coherent (app_world (serve bcrypt_hash bcrypt_compare request a)).
Proof.
  intros Hcoh. destruct request; simpl.
  - apply session_coherent_register. exact Hcoh.
  - apply session_coherent_login. exact Hcoh.
  - apply session_coherent_current_user. exact Hcoh.
  - unfold navigate_to_home. destruct (currentUser (app_world a)); exact Hcoh.
  - unfold logout_request. rewrite clearSession_run.
    destruct storageCleared; apply session_coherent_cleared.
  - apply session_coherent_preferences. exact Hcoh.
  - apply session_coherent_refreshed. exact Hcoh.
  - apply session_coherent_loaded. exact Hcoh.
  - exact Hcoh.
Qed.

(** X4. The cache and the session file stay in step.  From a world in which
    they agree (as in a process just started on a file [saveSession] wrote,
    or on none), after any requests served in any order: a session file is a
    record as [saveSession] writes it, a cached user is the user of that
    record, and a user answered by [get-current-user] is the cached one. *)
Theorem session_stays_coherent (requests : list Request) (a : App) :
  session_coherent (app_world a) ->
  let w' := app_world (serve_all bcrypt_hash bcrypt_compare requests a) in
  session_coherent w' /\
  forall (currentTime now1 now2 : Z) (u : User),
    result (get_current_user currentTime now1 now2 w') = Normal (Some u) ->
    exists cu, currentUser w' = Some cu /\ u = session_user cu.
Proof.
  intros Hcoh w'.
  assert (Hcoh' : session_coherent w').
  { subst w'. revert a Hcoh. induction requests as [| request requests IH]; intros a Hcoh.
    - exact Hcoh.
    - rewrite serve_all_cons. apply IH. apply session_coherent_serve. exact Hcoh. }
  split; [exact Hcoh' |].
  intros currentTime now1 now2 u Hans.
  destruct (currentUser w') as [cu |] eqn:Hc.
  - exists cu. split; [reflexivity |].
    destruct (proj1 Hcoh' cu Hc) as (T & e & Hf).
    destruct (session_fields (Some (mkSessionData (Some (session_user cu)) (Some T) e)))
      as [[u' ts] |] eqn:Hv.
    + assert (u' = session_user cu) as ->.
      { unfold session_fields in Hv. simpl in Hv.
        destruct (truthy_number T); [| discriminate]. congruence. }
      destruct (Z_lt_le_dec (currentTime - ts) SESSION_TIMEOUT) as [Hlt | Hge].
      * rewrite (get_current_user_run currentTime now1 now2 w' cu true _ Hc
                   (loadSavedSession_fresh currentTime w' _ _ ts Hf Hv Hlt)) in Hans.
        simpl in Hans. unfold result in Hans; simpl in Hans. congruence.
      * rewrite (get_current_user_run currentTime now1 now2 w' cu false _ Hc
                   (loadSavedSession_expired currentTime w' _ _ ts Hf Hv Hge)) in Hans.
        discriminate.
    + rewrite (get_current_user_run currentTime now1 now2 w' cu false _ Hc
                 (loadSavedSession_invalid currentTime w' _ Hf Hv)) in Hans.
      discriminate.
  - rewrite (get_current_user_no_cache currentTime now1 now2 w' Hc) in Hans.
    discriminate.
Qed.

(** What one request does to the table. *)
Lemma serve_db (request : Request) (a : App) :
  db (app_world (serve bcrypt_hash bcrypt_compare request a)) = db (app_world a) \/
  exists userData salt,
    request = RegisterUser userData salt /\
    lookup_email (ud_email userData) (db (app_world a)) = None /\
    db (app_world (serve bcrypt_hash bcrypt_compare request a)) =
      mkDatabase
        (rows (db (app_world a)) ++
           [mkUserRow (next_rowid (db (app_world a))) (ud_name userData)
              (ud_email userData)
              (hashPassword bcrypt_hash (ud_password userData) salt)])
        (next_rowid (db (app_world a))).
Proof.
  destruct request; simpl.
  - destruct (register_user_world bcrypt_hash userData salt (app_world a))
      as [(row & _ & Hrun) | [Hfree Hrun]]; rewrite Hrun; unfold world; simpl.
    + left. reflexivity.
    + right. exists userData, salt. repeat split. exact Hfree.
  - left. apply login_user_db.
  - left. apply get_current_user_db.
  - left. unfold navigate_to_home. destruct (currentUser (app_world a)); reflexivity.
  - left. unfold logout_request. rewrite clearSession_run.
    destruct storageCleared; reflexivity.
  - left. apply save_user_preferences_db.
  - left. apply refreshSession_db.
  - left. apply loadSavedSession_db.
  - left. reflexivity.
Qed.

(** X6. No request removes or alters a row: after any requests the table
    starts with the rows it had before, in the same order and with the same
    names, emails and password hashes, and only a registration can extend it. *)
Theorem table_only_grows (requests : list Request) (a : App) :
  rows (db (app_world a)) `prefix_of`
    rows (db (app_world (serve_all bcrypt_hash bcrypt_compare requests a))) /\
  ((forall request, In request requests ->
      forall userData salt, request <> RegisterUser userData salt) ->
   db (app_world (serve_all bcrypt_hash bcrypt_compare requests a)) = db (app_world a)).
Proof.
  revert a. induction requests as [| request requests IH]; intros a.
  - split; [reflexivity | intros _; reflexivity].
  - rewrite serve_all_cons.
    destruct (IH (serve bcrypt_hash bcrypt_compare request a)) as [Hpre Hsame].
    split.
    + etransitivity; [| exact Hpre].
      destruct (serve_db request a) as [-> | (ud & salt & _ & _ & ->)].
      * reflexivity.
      * simpl. apply prefix_app_r. reflexivity.
    + intros Hnone. rewrite Hsame.
      * destruct (serve_db request a) as [Heq | (ud & salt & Hreq & _)];
          [exact Heq |].
        exfalso. exact (Hnone request (or_introl eq_refl) ud salt Hreq).
      * intros request' Hin. apply Hnone. right. exact Hin.
Qed.

(** X5. The table never comes to hold two rows with one email or with one
    id: if it has none to begin with, it has none after any requests. *)
Theorem rows_stay_unique (requests : list Request) (a : App) :
  unique_rows (db (app_world a)) ->
  unique_rows (db (app_world (serve_all bcrypt_hash bcrypt_compare requests a))).
Proof.
  revert a. induction requests as [| request requests IH]; intros a Huniq.
  - exact Huniq.
  - rewrite serve_all_cons. apply IH.
    destruct (serve_db request a) as [-> | (ud & salt & _ & Hfree & ->)].
    + exact Huniq.
    + apply unique_rows_inserted; assumption.
Qed.

End DispatchProperties.

(** ** Polling keeps a session alive *)

(** X12. Every answered [get-current-user] restarts the window: a session
    that is asked for at least once every [SESSION_TIMEOUT] is answered with
    its user every time, however long ago it was established. *)
Theorem polling_keeps_session_alive (readings : list (Z * Z * Z)) (T : Z) (u : User)
    (w : World) :
  session_established T u w ->
  T <> 0 ->
  within_timeout T readings ->
  Forall (fun answer => answer = Normal (Some u)) (fst (poll readings w)).
Proof.
  revert T w. induction readings as [| [[currentTime now1] now2] rest IH];
    intros T w Hest HT Hwithin; simpl.
  - constructor.
  - destruct Hwithin as (Hage & Hnow1 & Hrest).
    pose proof (established_current_user_fresh T u w currentTime now1 now2 Hest HT Hage)
      as Hrun.
    assert (Hu : session_user u = u).
    { destruct Hest as [(cu & _ & <-) _]. reflexivity. }
    assert (Hest' : session_established now1 u
                      (world (get_current_user currentTime now1 now2 w))).
    { rewrite Hrun. unfold world; simpl. split.
      - exists u. split; [reflexivity | exact Hu].
      - eexists. simpl. rewrite Hu. reflexivity. }
    specialize (IH now1 _ Hest' Hnow1 Hrest).
    destruct (poll rest (world (get_current_user currentTime now1 now2 w)))
      as [answers w'].
    simpl in *. constructor; [| exact IH].
    rewrite Hrun. reflexivity.
Qed.

Lemma polling_keeps_session_alive_witness :
  Forall (fun answer => answer = Normal (Some alice_user))
    (fst (poll [(1000 + SESSION_TIMEOUT - 1, 1000 + SESSION_TIMEOUT - 1, 0);
                (1000 + 2 * SESSION_TIMEOUT - 2, 1000 + 2 * SESSION_TIMEOUT - 2, 0)]
            alice_logged_in)).
Proof.
  apply (polling_keeps_session_alive _ 1000 alice_user alice_logged_in).
  - exact alice_session_established.
  - lia.
  - vm_compute. repeat split; discriminate.
Defined.

(** ** Logout *)

(** X2. [logout], from any state and whether or not the browsing storage
    could be cleared: the session file is deleted, the cache emptied, the
    login preload set and the login page loaded, the table untouched.
    Afterwards [get-current-user] answers [null], [validate-session] answers
    [false], activity signals, preference updates and [navigate-to-home] do
    nothing, and a second logout changes nothing. *)
Theorem logout_ends_session (storageCleared : bool) (a : App) :
  let a' := logout_request storageCleared a in
  app_world a' = mkWorld None None (db (app_world a)) /\
  sessionPreloads a' = ["../preload/preload.js"] /\
  loadedFile a' = Some "../renderer/index.html" /\
  (forall currentTime now1 now2,
     get_current_user currentTime now1 now2 (app_world a') = (Normal None, app_world a')) /\
  (forall currentTime,
     validate_session currentTime (app_world a') = (Normal false, app_world a')) /\
  (forall now1 now2,
     session_activity now1 now2 (app_world a') = (Normal tt, app_world a')) /\
  (forall patch now1 now2,
     save_user_preferences patch now1 now2 (app_world a') = (Normal tt, app_world a')) /\
  navigate_to_home a' = a' /\
  (forall storageCleared', logout_request storageCleared' a' = a').
Proof.
  intros a'.
  assert (Hw : app_world a' = mkWorld None None (db (app_world a))).
  { subst a'. unfold logout_request. rewrite clearSession_run.
    destruct storageCleared; reflexivity. }
  assert (Hp : sessionPreloads a' = ["../preload/preload.js"])
    by (subst a'; unfold logout_request; destruct storageCleared; reflexivity).
  assert (Hl : loadedFile a' = Some "../renderer/index.html")
    by (subst a'; unfold logout_request; destruct storageCleared; reflexivity).
  repeat split; try assumption.
  - intros. apply get_current_user_no_cache. rewrite Hw. reflexivity.
  - intros. apply loadSavedSession_no_file. rewrite Hw. reflexivity.
  - intros. unfold session_activity. rewrite refreshSession_run, Hw. reflexivity.
  - intros. apply save_user_preferences_no_user. rewrite Hw. reflexivity.
  - unfold navigate_to_home. rewrite Hw. reflexivity.
  - intros c. destruct a' as [w' p' l']. simpl in *. subst.
    unfold logout_request. rewrite clearSession_run. destruct c; reflexivity.
Qed.

(** ** Which page is loaded *)

Lemma createWindow_run (currentTime : Z) (a : App) (b : bool) (w' : World) :
  loadSavedSession currentTime (app_world a) = (Normal b, w') ->
  createWindow currentTime a =
    if b then mkApp w' ["../preload/home-preload.js"] (Some "../renderer/home.html")
    else mkApp w' (sessionPreloads a) (Some "../renderer/index.html").
Proof.
  intros Hl. unfold createWindow. simpl. rewrite Hl. destruct b; reflexivity.
Qed.

(** X13. [createWindow] loads the home page exactly when the session file
    holds a session younger than [SESSION_TIMEOUT]; it then has that
    session's user in the cache and the home preload set.  In every other
    case it loads the login page and leaves the preloads as they were. *)
Theorem createWindow_chooses_page (currentTime : Z) (a : App) :
  let a' := createWindow currentTime a in
  (loadedFile a' = Some "../renderer/home.html" <->
     exists v u ts,
       userSessionFile (app_world a) = Some (JsonText v) /\
       session_fields v = Some (u, ts) /\
       currentTime - ts < SESSION_TIMEOUT) /\
  (forall v u ts,
     userSessionFile (app_world a) = Some (JsonText v) ->
     session_fields v = Some (u, ts) ->
     currentTime - ts < SESSION_TIMEOUT ->
     currentUser (app_world a') = Some u /\
     sessionPreloads a' = ["../preload/home-preload.js"]) /\
  (loadedFile a' <> Some "../renderer/home.html" ->
     loadedFile a' = Some "../renderer/index.html" /\
     sessionPreloads a' = sessionPreloads a).
Proof.
  intros a'. subst a'.
  destruct (userSessionFile (app_world a)) as [[raw | v] |] eqn:Hf.
  - rewrite (createWindow_run currentTime a false _
               (loadSavedSession_unparseable currentTime _ raw Hf)).
    simpl. split; [| split].
    + split; [discriminate | intros (v & u & ts & Hv & _); discriminate].
    + intros v u ts Hv. discriminate.
    + intros _. split; reflexivity.
  - destruct (session_fields v) as [[u ts] |] eqn:Hv.
    + destruct (Z_lt_le_dec (currentTime - ts) SESSION_TIMEOUT) as [Hlt | Hge].
      * rewrite (createWindow_run currentTime a true _
                   (loadSavedSession_fresh currentTime _ v u ts Hf Hv Hlt)).
        simpl. split; [| split].
        -- split; [intros _; exists v, u, ts; repeat split; assumption | reflexivity].
        -- intros v' u' ts' Hv' Hs' _. injection Hv' as <-.
           rewrite Hv in Hs'. injection Hs' as <- <-. split; reflexivity.
        -- intros Hne. contradiction Hne. reflexivity.
      * rewrite (createWindow_run currentTime a false _
                   (loadSavedSession_expired currentTime _ v u ts Hf Hv Hge)).
        simpl. split; [| split].
        -- split; [discriminate |].
           intros (v' & u' & ts' & Hv' & Hs' & Hlt). injection Hv' as <-.
           rewrite Hv in Hs'. injection Hs' as <- <-. lia.
        -- intros v' u' ts' Hv' Hs' Hlt. injection Hv' as <-.
           rewrite Hv in Hs'. injection Hs' as <- <-. lia.
        -- intros _. split; reflexivity.
    + rewrite (createWindow_run currentTime a false _
                 (loadSavedSession_invalid currentTime _ v Hf Hv)).
      simpl. split; [| split].
      * split; [discriminate |].
        intros (v' & u' & ts' & Hv' & Hs' & _). injection Hv' as <-. congruence.
      * intros v' u' ts' Hv' Hs' _. injection Hv' as <-. congruence.
      * intros _. split; reflexivity.
  - rewrite (createWindow_run currentTime a false _
               (loadSavedSession_no_file currentTime _ Hf)).
    simpl. split; [| split].
    + split; [discriminate | intros (v & u & ts & Hv & _); discriminate].
    + intros v u ts Hv. discriminate.
    + intros _. split; reflexivity.
Qed.

Section NavigationProperties.

Variable bcrypt_hash : string -> Z -> string -> string.
Variable bcrypt_compare : string -> string -> bool.

(** X14. The home page is loaded only for a cached user.  Without one,
    [navigate-to-home] changes nothing; and if a request leaves the home page
    loaded where it was not before, the request is [navigate-to-home], a
    user is cached, and the home preload has been set. *)
Theorem home_page_needs_user (request : Request) (a : App) :
  (currentUser (app_world a) = None -> navigate_to_home a = a) /\
  let a' := serve bcrypt_hash bcrypt_compare request a in
  (loadedFile a' = Some "../renderer/home.html" ->
   loadedFile a <> Some "../renderer/home.html" ->
   request = NavigateToHome /\
   is_Some (currentUser (app_world a')) /\
   sessionPreloads a' = ["../preload/home-preload.js"]).
Proof.
  split.
  - intros Hc. unfold navigate_to_home. rewrite Hc. reflexivity.
  - intros a' Hhome Hnot. subst a'.
    destruct request; simpl in Hhome; try (contradiction (Hnot Hhome)).
    + simpl. unfold navigate_to_home in *.
      destruct (currentUser (app_world a)) as [cu |] eqn:Hc.
      * simpl. rewrite Hc. repeat split. exists cu. reflexivity.
      * contradiction (Hnot Hhome).
    + unfold logout_request in Hhome. destruct storageCleared; discriminate Hhome.
Qed.

End NavigationProperties.

Lemma home_page_needs_user_witness :
  navigate_to_home fresh_app = fresh_app.
Proof.
  apply (home_page_needs_user demo_hash demo_compare NavigateToHome fresh_app).
  reflexivity.
Defined.

(** ** The keys that are swallowed *)

Lemma lower_ascii_i (c : Ascii.ascii) :
  lower_ascii c = Ascii.ascii_of_N 105 ->
  c = Ascii.ascii_of_N 105 \/ c = Ascii.ascii_of_N 73.
Proof.
  destruct c as [[] [] [] [] [] [] [] []]; vm_compute; intros H;
    first [discriminate H | left; reflexivity | right; reflexivity].
Qed.

Lemma toLowerCase_i (s : string) :
  String.eqb (toLowerCase s) "i" = true <-> s = "i" \/ s = "I".
Proof.
  rewrite String.eqb_eq. split.
  - destruct s as [| c [| c' s]]; simpl; intros H; try discriminate H.
    injection H as Hc. destruct (lower_ascii_i c Hc) as [-> | ->]; auto.
  - intros [-> | ->]; reflexivity.
Qed.

(** X15. The listener of [before-input-event] swallows exactly F12 and the
    letter I, in either case, pressed with Control and Shift or with Meta and
    Alt; every other input goes through. *)
Theorem devtools_shortcuts_swallowed (input : KeyInput) :
  before_input_event input = true <->
  input_key input = "F12" \/
  ((input_key input = "i" \/ input_key input = "I") /\
   ((input_control input = true /\ input_shift input = true) \/
    (input_meta input = true /\ input_alt input = true))).
Proof.
  unfold before_input_event.
  rewrite !orb_true_iff, !andb_true_iff, toLowerCase_i, String.eqb_eq.
  tauto.
Qed.

(** ** Where the database file is *)



(** ** The invariants on a concrete run *)

Lemma session_coherent_fresh : session_coherent fresh_world.
Proof. split; intros ? H; discriminate H. Defined.

Lemma session_stays_coherent_witness :
  session_coherent (app_world (serve_all demo_hash demo_compare alice_requests fresh_app)).
Proof.
  apply (session_stays_coherent demo_hash demo_compare alice_requests fresh_app).
  exact session_coherent_fresh.
Defined.

Lemma rows_stay_unique_witness :
  unique_rows (db (app_world (serve_all demo_hash demo_compare alice_requests fresh_app))).
Proof.
  apply (rows_stay_unique demo_hash demo_compare alice_requests fresh_app).
  split; constructor.
Defined.

Lemma table_only_grows_witness :
  db (app_world (serve_all demo_hash demo_compare
                   [LoginUser alice_login 1000 1000; Logout false]
                   (mkApp alice_registered [] None))) =
    db alice_registered.
Proof.
  apply (table_only_grows demo_hash demo_compare
           [LoginUser alice_login 1000 1000; Logout false]
           (mkApp alice_registered [] None)).
  intros request [<- | [<- | []]] userData salt; discriminate.
Defined.

Lemma createWindow_chooses_page_witness :
  loadedFile (createWindow 2000 (mkApp (restart alice_logged_in) [] None)) =
    Some "../renderer/home.html".
Proof.
  apply (createWindow_chooses_page 2000 (mkApp (restart alice_logged_in) [] None)).
  eexists _, alice_user, 1000. vm_compute. repeat split.
Defined.
